(** * Telegram_Chatbot: the webhook dispatcher and the per-chat session store

    A shallow embedding of [app/main.py]: the two process-wide
    dictionaries [conversations] and [user_modes], the helpers
    [get_history], [append_and_trim], [get_mode], the three transport
    helpers and the [webhook] handler.

    The inbound update is the value [await req.json()] gives: an
    arbitrary JSON value, inspected field by field with the Python
    operations the source uses ([in], [d[k]], [d.get(k)], truthiness,
    [isinstance]).  Each of them raises exactly where Python raises.

    The two external collaborators (the chat platform reached through
    httpx, the completion service reached through the OpenAI client)
    are an oracle [env]: the outcome of every outbound call is read
    from it, and the calls made to the chat platform are recorded in
    the world, in order.  What the handler prints is not modelled, nor
    is the interleaving of two deliveries: one run of [webhook] is one
    delivery, from its first line to its return or its exception. *)

From Stdlib Require Import ZArith String Ascii List Lia.
From stdpp Require Import base decidable countable gmap strings list.

Local Open Scope string_scope.
Local Open Scope list_scope.
Set Warnings "-register-all".

(** ** Python values *)

(** What [json.loads] produces.  A JSON object is the parsed dict: keys
    are distinct, so the first binding found is the binding.  Numbers
    with a fraction are outside this model; Python's [None] is
    [JNull]. *)
Inductive json : Type :=
| JNull
| JBool (b : bool)
| JNum (n : Z)
| JStr (s : string)
| JArr (xs : list json)
| JObj (kvs : list (string * json)).

(** The exceptions the handler can raise. *)
Inductive exn : Type :=
| KeyError (k : string)
| TypeError
| AttributeError
| IndexError
| TransportError.

Inductive outcome (A : Type) : Type :=
| Returned (a : A)
| Raised (e : exn).
Arguments Returned {A} a.
Arguments Raised {A} e.

Fixpoint assoc (k : string) (kvs : list (string * json)) : option json :=
  match kvs with
  | [] => None
  | (k', v) :: rest => if String.eqb k k' then Some v else assoc k rest
  end.

(** [s.startswith(p)] *)
Fixpoint startswith (p s : string) : bool :=
  match p with
  | EmptyString => true
  | String a p' =>
      match s with
      | EmptyString => false
      | String b s' => Ascii.eqb a b && startswith p' s'
      end
  end.

(** [needle in s] for two strings *)
Definition str_contains (needle s : string) : bool :=
  match String.index 0 needle s with
  | Some _ => true
  | None => false
  end.

(** [s.split(sep)] for a one-character separator *)
Fixpoint split (sep : ascii) (s : string) : list string :=
  match s with
  | EmptyString => [EmptyString]
  | String c rest =>
      if Ascii.eqb c sep then EmptyString :: split sep rest
      else match split sep rest with
           | h :: t => String c h :: t
           | [] => [String c EmptyString]
           end
  end.

(** [k in v] *)
Definition py_in (k : string) (v : json) : outcome bool :=
  match v with
  | JObj kvs => Returned (bool_decide (is_Some (assoc k kvs)))
  | JArr xs =>
      Returned (existsb (fun x => match x with
                                  | JStr s => String.eqb s k
                                  | _ => false
                                  end) xs)
  | JStr s => Returned (str_contains k s)
  | JNull | JBool _ | JNum _ => Raised TypeError
  end.

(** [v[k]] with a string subscript *)
Definition py_getitem (v : json) (k : string) : outcome json :=
  match v with
  | JObj kvs =>
      match assoc k kvs with
      | Some x => Returned x
      | None => Raised (KeyError k)
      end
  | _ => Raised TypeError
  end.

(** [v.get(k, default)] *)
Definition py_get (v : json) (k : string) (default : json) : outcome json :=
  match v with
  | JObj kvs =>
      match assoc k kvs with
      | Some x => Returned x
      | None => Returned default
      end
  | _ => Raised AttributeError
  end.

(** [bool(v)] *)
Definition truthy (v : json) : bool :=
  match v with
  | JNull => false
  | JBool b => b
  | JNum n => negb (n =? 0)%Z
  | JStr s => negb (String.eqb s "")
  | JArr xs => match xs with [] => false | _ => true end
  | JObj kvs => match kvs with [] => false | _ => true end
  end.

(** [v.startswith(p)]: only a string has the method *)
Definition py_startswith (v : json) (p : string) : outcome bool :=
  match v with
  | JStr s => Returned (startswith p s)
  | _ => Raised AttributeError
  end.

(** [l[i]] on a list of strings *)
Definition py_index (l : list string) (i : nat) : outcome string :=
  match nth_error l i with
  | Some x => Returned x
  | None => Raised IndexError
  end.

(** [l[-n:]] *)
Definition slice_last {A} (n : nat) (l : list A) : list A :=
  skipn (length l - n) l.

(** The Unicode-aware string methods of the runtime: [str.strip],
    [str.lower] and [str.title].  Their tables are not part of the
    repository; the handler is parametric in them. *)
Record StrOps : Type := {
  strip : string -> string;
  lower : string -> string;
  title : string -> string;
}.

(** ** Dictionary keys *)

(** A chat id is used as a dictionary key.  [None], integers and
    strings are hashable ([True] and [False] are the keys [1] and [0]);
    lists and dicts are not. *)
Inductive key : Type :=
| KNone
| KInt (n : Z)
| KStr (s : string).

#[global] Instance key_eq_dec : EqDecision key.
Proof. solve_decision. Defined.

#[global] Instance key_countable : Countable key.
Proof.
  refine (inj_countable'
    (fun k => match k with
              | KNone => inl ()
              | KInt n => inr (inl n)
              | KStr s => inr (inr s)
              end)
    (fun x => match x with
              | inl _ => KNone
              | inr (inl n) => KInt n
              | inr (inr s) => KStr s
              end) _).
  intros []; reflexivity.
Defined.

Definition to_key (v : json) : outcome key :=
  match v with
  | JNull => Returned KNone
  | JBool b => Returned (KInt (if b then 1 else 0))
  | JNum n => Returned (KInt n)
  | JStr s => Returned (KStr s)
  | JArr _ | JObj _ => Raised TypeError
  end.

(** ** Memory and modes *)

(** One history entry: [{"role": role, "content": content}]. *)
Record entry : Type := Entry { role : string; content : string }.

Definition MAX_TURNS : nat := 10.

Definition modes : list (string * string) :=
  [ ("general", "You are a helpful, concise assistant for everyday questions.");
    ("restaurant", "You are a restaurant assistant. Help users find restaurants, suggest dishes, and answer politely.");
    ("fitness", "You are a friendly fitness coach. Give workout routines, diet tips, and motivational advice.");
    ("realestate", "You are a professional real estate agent. Provide property suggestions, buying/selling advice, and market insights.") ].

Definition DEFAULT_MODE : string := "general".

(** [name in modes] *)
Definition in_modes (name : string) : bool :=
  existsb (String.eqb name) (map fst modes).

(** [modes.get(name, default)] *)
Fixpoint modes_get (name : string) (tbl : list (string * string)) (default : string) : string :=
  match tbl with
  | [] => default
  | (k, v) :: rest => if String.eqb name k then v else modes_get name rest default
  end.

(** ** The world: the two dictionaries and the outbound calls *)

(** An outbound HTTP call to the chat platform: the API method and
    either a JSON body ([json=payload]) or query parameters
    ([params=...]). *)
Inductive request : Type :=
| PostJson (method : string) (payload : json)
| PostParams (method : string) (params : json).

(** What [http.post] does: it returns a response, which the helpers
    discard whatever its status, or raises (connection error,
    timeout). *)
Inductive post_result : Type :=
| Response (status : Z)
| NetworkError.

(** What the completion call of the [try] block does: it yields the
    content of the first choice ([None] when there is none) or raises;
    any exception inside the block counts, with its text. *)
Inductive completion_result : Type :=
| Completion (text : option string)
| CompletionError (err : string).

(** The collaborators during one delivery. *)
Record env : Type := {
  post : request -> post_result;
  create_completion : list entry -> completion_result;
}.

Record world : Type := World {
  conversations : gmap key (list entry);
  user_modes : gmap key string;
  sent : list request;
}.

(** A computation reads and writes the world and returns or raises;
    what was written before an exception stays written. *)
Definition M (A : Type) : Type := world -> outcome A * world.

Definition ret {A} (a : A) : M A := fun w => (Returned a, w).
Definition raise {A} (e : exn) : M A := fun w => (Raised e, w).
Definition bind {A B} (m : M A) (k : A -> M B) : M B :=
  fun w => match m w with
           | (Returned a, w') => k a w'
           | (Raised e, w') => (Raised e, w')
           end.
Definition lift {A} (o : outcome A) : M A := fun w => (o, w).

Notation "x <- m ;; k" := (bind m (fun x => k))
  (at level 100, m at next level, right associativity).
Notation "m ;;; k" := (bind m (fun _ => k))
  (at level 100, right associativity).

Definition get_world : M world := fun w => (Returned w, w).
Definition set_conversations (c : gmap key (list entry)) : M unit :=
  fun w => (Returned tt, World c (user_modes w) (sent w)).
Definition set_user_modes (u : gmap key string) : M unit :=
  fun w => (Returned tt, World (conversations w) u (sent w)).

(** [get_history]: [conversations.setdefault(chat_id, [])] *)
Definition get_history (chat_id : json) : M (list entry) :=
  k <- lift (to_key chat_id) ;;
  w <- get_world ;;
  match conversations w !! k with
  | Some hist => ret hist
  | None => set_conversations (<[k := []]> (conversations w)) ;;; ret []
  end.

(** [append_and_trim]: the list held by the dictionary is extended in
    place, then rebound to its last [MAX_TURNS * 2] entries when it is
    longer than that. *)
Definition append_and_trim (chat_id : json) (r c : string) : M unit :=
  hist <- get_history chat_id ;;
  k <- lift (to_key chat_id) ;;
  let hist := hist ++ [Entry r c] in
  w <- get_world ;;
  set_conversations (<[k := hist]> (conversations w)) ;;;
  if Nat.ltb (MAX_TURNS * 2) (length hist) then
    w <- get_world ;;
    set_conversations (<[k := slice_last (MAX_TURNS * 2) hist]> (conversations w))
  else ret tt.

(** [get_mode]: [user_modes.get(chat_id, DEFAULT_MODE)] *)
Definition get_mode (chat_id : json) : M string :=
  k <- lift (to_key chat_id) ;;
  w <- get_world ;;
  ret (default DEFAULT_MODE (user_modes w !! k)).

(** [conversations.pop(chat_id, None)] *)
Definition conversations_pop (chat_id : json) : M unit :=
  k <- lift (to_key chat_id) ;;
  w <- get_world ;;
  set_conversations (delete k (conversations w)).

(** [user_modes[chat_id] = name] *)
Definition user_modes_set (chat_id : json) (name : string) : M unit :=
  k <- lift (to_key chat_id) ;;
  w <- get_world ;;
  set_user_modes (<[k := name]> (user_modes w)).

(** ** Helpers and webhook *)

Definition nl : string := String (ascii_of_nat 10) EmptyString.

(** The body every handler path returns: [{"ok": True}]. *)
Definition OK : json := JObj [("ok", JBool true)].

(** [main_keyboard]: the persistent reply keyboard. *)
Definition main_keyboard : json :=
  JObj [ ("keyboard", JArr [JArr [JObj [("text", JStr "⚙️ Mode")];
                                   JObj [("text", JStr "🔄 Reset")]]]);
         ("resize_keyboard", JBool true);
         ("one_time_keyboard", JBool false) ].

(** [modes[name]] *)
Definition modes_getitem (name : string) : outcome string :=
  match find (fun kv => String.eqb name (fst kv)) modes with
  | Some kv => Returned (snd kv)
  | None => Raised (KeyError name)
  end.

(** [v.split(":")]: only a string has the method *)
Definition py_split (v : json) : outcome (list string) :=
  match v with
  | JStr s => Returned (split ":" s)
  | _ => Raised AttributeError
  end.

Section Handler.

Variable ops : StrOps.
Variable e : env.

(** [await http.post(...)]: the call is made, and its exception, if
    any, is the caller's. *)
Definition http_post (r : request) : M unit :=
  fun w =>
    let w' := World (conversations w) (user_modes w) (sent w ++ [r]) in
    match post e r with
    | Response _ => (Returned tt, w')
    | NetworkError => (Raised TransportError, w')
    end.

Definition answer_callback_query (callback_query_id : json) (text : json) : M unit :=
  let payload := [("callback_query_id", callback_query_id)] in
  let payload := if truthy text then payload ++ [("text", text)] else payload in
  http_post (PostJson "answerCallbackQuery" (JObj payload)).

Definition send_typing (chat_id : json) : M unit :=
  http_post (PostParams "sendChatAction"
               (JObj [("chat_id", chat_id); ("action", JStr "typing")])).

Definition send_message (chat_id : json) (text : string) (reply_markup : json) : M unit :=
  let payload := [("chat_id", chat_id); ("text", JStr text);
                  ("parse_mode", JStr "Markdown")] in
  let payload :=
    if truthy reply_markup then payload ++ [("reply_markup", reply_markup)]
    else payload in
  http_post (PostJson "sendMessage" (JObj payload)).

(** The rows of the mode-selection inline keyboard: one button per
    registered mode, the active one marked. *)
Definition mode_buttons (active : string) : json :=
  JArr (map (fun name =>
               JArr [JObj [("text", JStr ((if String.eqb name active then "✅ " else "")
                                          +:+ title ops name));
                           ("callback_data", JStr ("mode:" +:+ name))]])
            (map fst modes)).

Definition welcome : string :=
  "👋 Hi! I’m your AI assistant." +:+ nl +:+
  "• Use /reset to clear memory" +:+ nl +:+
  "• Use /mode to change my role (restaurant, fitness, realestate)" +:+ nl +:+
  "Default mode: General ✅".

Definition apology : string := "Sorry, I ran into an issue.".

(** The [try] block around the completion call. *)
Definition completion_reply (messages : list entry) : string :=
  match create_completion e messages with
  | Completion (Some s) => if String.eqb s "" then "..." else s
  | Completion None => "..."
  | CompletionError _ => apology
  end.

(** The button-press part of [webhook]: [Some v] when it returns [v],
    [None] when control falls through to the message part. *)
Definition callback_part (update : json) : M (option json) :=
  cq <- lift (py_getitem update "callback_query") ;;
  message <- lift (py_getitem cq "message") ;;
  chat <- lift (py_getitem message "chat") ;;
  chat_id <- lift (py_getitem chat "id") ;;
  callback_data <- lift (py_getitem cq "data") ;;
  cq_id <- lift (py_getitem cq "id") ;;
  is_mode <- lift (py_startswith callback_data "mode:") ;;
  if is_mode : bool then
    parts <- lift (py_split callback_data) ;;
    mode_choice <- lift (py_index parts 1) ;;
    if in_modes mode_choice then
      user_modes_set chat_id mode_choice ;;;
      conversations_pop chat_id ;;;
      let buttons := mode_buttons mode_choice in
      let reply_markup := JObj [("inline_keyboard", buttons)] in
      answer_callback_query cq_id (JStr ("Mode set to " +:+ mode_choice)) ;;;
      send_message chat_id ("✅ Mode switched to *" +:+ title ops mode_choice +:+ "*")
        main_keyboard ;;;
      ret (Some OK)
    else ret (Some OK)
  else ret None.

(** The free-form turn at the end of [webhook]. *)
Definition chat_turn (chat_id : json) (text : string) : M json :=
  append_and_trim chat_id "user" text ;;;
  mode <- get_mode chat_id ;;
  default_prompt <- lift (modes_getitem DEFAULT_MODE) ;;
  let system_prompt := modes_get mode modes default_prompt in
  hist <- get_history chat_id ;;
  let messages := Entry "system" system_prompt :: hist in
  let bot_reply := completion_reply messages in
  append_and_trim chat_id "assistant" bot_reply ;;;
  let mode_label := title ops mode in
  let reply_text := "💬 *[" +:+ mode_label +:+ " Mode]*" +:+ nl +:+ nl +:+ bot_reply in
  send_message chat_id reply_text main_keyboard ;;;
  ret OK.

(** The text part of [webhook], after the typing indicator. *)
Definition text_part (chat_id : json) (text : string) : M json :=
  let t := lower ops (strip ops text) in
  if startswith "/start" t then
    conversations_pop chat_id ;;;
    user_modes_set chat_id DEFAULT_MODE ;;;
    send_message chat_id welcome main_keyboard ;;;
    ret OK
  else if startswith "/reset" t then
    conversations_pop chat_id ;;;
    send_message chat_id "Memory cleared. Fresh start! ✨" main_keyboard ;;;
    ret OK
  else if existsb (String.eqb t) ["/mode"; "⚙️ mode"] then
    current <- get_mode chat_id ;;
    let buttons := mode_buttons current in
    let reply_markup := JObj [("inline_keyboard", buttons)] in
    send_message chat_id "👉 Choose a mode:" reply_markup ;;;
    ret OK
  else chat_turn chat_id text.

Definition webhook (update : json) : M json :=
  has_cq <- lift (py_in "callback_query" update) ;;
  early <- (if has_cq : bool then callback_part update else ret None) ;;
  match early with
  | Some v => ret v
  | None =>
      message <- lift (py_get update "message" JNull) ;;
      if negb (truthy message) then ret OK
      else
        chat <- lift (py_get message "chat" (JObj [])) ;;
        chat_id <- lift (py_get chat "id" JNull) ;;
        text <- lift (py_get message "text" JNull) ;;
        match chat_id with
        | JNull => ret OK
        | _ =>
            send_typing chat_id ;;;
            match text with
            | JStr text => text_part chat_id text
            | _ =>
                send_message chat_id "I can only read text messages for now 😊" JNull ;;;
                ret OK
            end
        end
  end.

End Handler.

(** ** The runtime string methods on ASCII text *)

(** [c.isspace()] for an ASCII character *)
Definition is_space (c : ascii) : bool :=
  let n := nat_of_ascii c in
  (Nat.leb 9 n && Nat.leb n 13) || (Nat.leb 28 n && Nat.leb n 32).

Definition is_upper (c : ascii) : bool :=
  let n := nat_of_ascii c in Nat.leb 65 n && Nat.leb n 90.

Definition is_lower (c : ascii) : bool :=
  let n := nat_of_ascii c in Nat.leb 97 n && Nat.leb n 122.

Definition to_lower (c : ascii) : ascii :=
  if is_upper c then ascii_of_nat (nat_of_ascii c + 32) else c.

Definition to_upper (c : ascii) : ascii :=
  if is_lower c then ascii_of_nat (nat_of_ascii c - 32) else c.

Fixpoint lstrip (s : string) : string :=
  match s with
  | String c rest => if is_space c then lstrip rest else s
  | EmptyString => EmptyString
  end.

Fixpoint rstrip (s : string) : string :=
  match s with
  | String c rest =>
      match rstrip rest with
      | EmptyString => if is_space c then EmptyString else String c EmptyString
      | r => String c r
      end
  | EmptyString => EmptyString
  end.

Fixpoint map_string (f : ascii -> ascii) (s : string) : string :=
  match s with
  | String c rest => String (f c) (map_string f rest)
  | EmptyString => EmptyString
  end.

(** [prev_cased] tells whether the previous character was a letter. *)
Fixpoint title_from (prev_cased : bool) (s : string) : string :=
  match s with
  | String c rest =>
      let cased := is_upper c || is_lower c in
      String (if prev_cased then to_lower c else to_upper c) (title_from cased rest)
  | EmptyString => EmptyString
  end.

(** The three methods as they act on strings of ASCII characters; bytes
    of other characters are left as they are. *)
Definition ascii_ops : StrOps :=
  {| strip := fun s => rstrip (lstrip s);
     lower := map_string to_lower;
     title := title_from false |}.

(** ** Vocabulary of the properties *)

(** The stored history of a chat, read without creating it. *)
Definition history (w : world) (k : key) : list entry :=
  default [] (conversations w !! k).

(** Every stored history is within the cap. *)
Definition bounded (w : world) : Prop :=
  forall k, length (history w k) <= 2 * MAX_TURNS.

(** The state at process start. *)
Definition initial_world : world := World ∅ ∅ [].

(** One call of [append_and_trim] after another; a call that raises
    leaves what it leaves and the next one is made all the same. *)
Definition after_appends (w : world) (calls : list (json * string * string)) : world :=
  fold_left (fun w call => snd (append_and_trim call.1.1 call.1.2 call.2 w)) calls w.

(** [n] user and assistant pairs, in the order they are appended. *)
Definition turn_pairs (u a : nat -> string) (first n : nat) : list entry :=
  flat_map (fun i => [Entry "user" (u i); Entry "assistant" (a i)]) (seq first n).

(** The calls that append the given entries, in order, for one chat. *)
Definition appends_for (chat_id : json) (entries : list entry) : list (json * string * string) :=
  map (fun x => (chat_id, role x, content x)) entries.

Definition field (v : json) (k : string) : option json :=
  match py_getitem v k with
  | Returned x => Some x
  | Raised _ => None
  end.

(** An update that carries a button press with all that the platform's
    callback query has: the chat id of its message, the query id and a
    string of data. *)
Definition callback_query_of (update : json) : option (json * json * string) :=
  cq ← field update "callback_query";
  message ← field cq "message";
  chat ← field message "chat";
  chat_id ← field chat "id";
  data ← field cq "data";
  cq_id ← field cq "id";
  match data with
  | JStr d => Some (chat_id, cq_id, d)
  | _ => None
  end.

(** An update that carries a message with a chat id and a text, and no
    button press. *)
Definition text_message_of (update : json) : option (json * string) :=
  match update with
  | JObj kvs =>
      match assoc "callback_query" kvs with
      | Some _ => None
      | None =>
          message ← assoc "message" kvs;
          chat ← field message "chat";
          chat_id ← field chat "id";
          text ← field message "text";
          match chat_id, text with
          | JNull, _ => None
          | _, JStr t => Some (chat_id, t)
          | _, _ => None
          end
      end
  | _ => None
  end.

(** The typing indicator for a chat. *)
Definition typing_request (chat_id : json) : request :=
  PostParams "sendChatAction" (JObj [("chat_id", chat_id); ("action", JStr "typing")]).

(** A text message with a keyboard attached. *)
Definition message_request (chat_id : json) (text : string) (keyboard : json) : request :=
  PostJson "sendMessage"
    (JObj [("chat_id", chat_id); ("text", JStr text); ("parse_mode", JStr "Markdown");
           ("reply_markup", keyboard)]).

(** The mode-selection inline keyboard with [active] marked. *)
Definition mode_keyboard (ops : StrOps) (active : string) : json :=
  JObj [("inline_keyboard", mode_buttons ops active)].

(** A reply under the label of the mode it was made in. *)
Definition labelled_reply (ops : StrOps) (mode reply : string) : string :=
  "💬 *[" +:+ title ops mode +:+ " Mode]*" +:+ nl +:+ nl +:+ reply.

(** The message list of a turn: the prompt of the mode, then the
    history. *)
Definition turn_messages (mode : string) (hist : list entry) : list entry :=
  Entry "system" (modes_get mode modes "You are a helpful, concise assistant for everyday questions.")
  :: hist.

(** The world with one more outbound call made. *)
Definition with_sent (w : world) (r : request) : world :=
  World (conversations w) (user_modes w) (sent w ++ [r]).

(** Collaborators for the examples. *)
Definition env_up : env :=
  {| post := fun _ => Response 200;
     create_completion := fun _ => Completion (Some "Hello!") |}.

Definition env_typing_down : env :=
  {| post := fun r => match r with
                      | PostParams _ _ => NetworkError
                      | PostJson _ _ => Response 200
                      end;
     create_completion := fun _ => Completion (Some "Hello!") |}.

Definition env_completion_down : env :=
  {| post := fun _ => Response 200;
     create_completion := fun _ => CompletionError "rate limit exceeded" |}.

Definition text_update (chat_id : Z) (text : string) : json :=
  JObj [("update_id", JNum 1);
        ("message", JObj [("message_id", JNum 7);
                          ("chat", JObj [("id", JNum chat_id)]);
                          ("text", JStr text)])].

Definition button_update (chat_id : Z) (data : string) : json :=
  JObj [("update_id", JNum 2);
        ("callback_query",
          JObj [("id", JStr "q1");
                ("message", JObj [("message_id", JNum 8);
                                  ("chat", JObj [("id", JNum chat_id)])]);
                ("data", JStr data)])].

(** A store with two chats in it. *)
Definition two_chats : world :=
  World (<[KInt 5 := [Entry "user" "hi"; Entry "assistant" "Hello!"]]>
           (<[KInt 6 := [Entry "user" "menu?"]]> ∅))
        (<[KInt 5 := "restaurant"]> (<[KInt 6 := "fitness"]> ∅))
        [].

(** A button press of an inline-mode message: the platform sends no
    [message] with it. *)
Definition inline_button_update : json :=
  JObj [("update_id", JNum 3);
        ("callback_query",
          JObj [("id", JStr "q1");
                ("inline_message_id", JStr "AAA");
                ("data", JStr "mode:fitness")])].

(** A button press of an inline-mode message with data of another
    kind than a mode: no [message] with it, and none in the update. *)
Definition inline_page_update : json :=
  JObj [("update_id", JNum 3);
        ("callback_query",
          JObj [("id", JStr "q1");
                ("inline_message_id", JStr "AAA");
                ("data", JStr "page:2")])].

(** ** Process start *)

(** [os.getenv(name)] on the environment as [load_dotenv] leaves it. *)
Definition getenv (environ : gmap string string) (name : string) : option string :=
  environ !! name.

(** [bool(v)] for an optional string *)
Definition str_truthy (v : option string) : bool :=
  match v with
  | Some s => negb (String.eqb s "")
  | None => false
  end.

(** [a or b] *)
Definition str_or (a b : option string) : option string :=
  if str_truthy a then a else b.

(** What the first section of the module does when it is imported: it
    binds the two secrets and the base URL of the platform API, or
    raises [RuntimeError]. *)
Inductive startup : Type :=
| Started (bot_token openai_api_key telegram_api : string)
| RuntimeError (message : string).

Definition load_config (environ : gmap string string) : startup :=
  let BOT_TOKEN := str_or (getenv environ "BOT_TOKEN") (getenv environ "TELEGRAM_BOT_TOKEN") in
  let OPENAI_API_KEY := getenv environ "OPENAI_API_KEY" in
  if negb (str_truthy BOT_TOKEN) then
    RuntimeError "Telegram bot token missing. Set BOT_TOKEN or TELEGRAM_BOT_TOKEN in your .env"
  else if negb (str_truthy OPENAI_API_KEY) then
    RuntimeError "OpenAI API key missing. Set OPENAI_API_KEY in your .env"
  else
    Started (default "" BOT_TOKEN) (default "" OPENAI_API_KEY)
            ("https://api.telegram.org/bot" +:+ default "" BOT_TOKEN).

(** ** Vocabulary of the further properties *)

(** Every stored mode is a registered one. *)
Definition modes_registered (w : world) : Prop :=
  forall k m, user_modes w !! k = Some m -> in_modes m = true.

(** The two facts a delivery keeps: histories within the cap, stored
    modes registered. *)
Definition sound (w : world) : Prop := bounded w /\ modes_registered w.

(** What a computation establishes from a world, on its result and on
    the world it leaves. *)
Definition wp {A} (m : M A) (Q : outcome A -> world -> Prop) (w : world) : Prop :=
  Q (m w).1 (m w).2.

(** A computation that keeps the store sound, whether it returns or
    raises. *)
Definition keeps {A} (m : M A) : Prop :=
  forall w, sound w -> wp m (fun _ w' => sound w') w.

(** An update that carries a message with a chat id, whatever its
    content, and no button press; the text is [JNull] when the message
    has none. *)
Definition message_of (update : json) : option (json * json) :=
  match update with
  | JObj kvs =>
      match assoc "callback_query" kvs with
      | Some _ => None
      | None =>
          message ← assoc "message" kvs;
          chat ← field message "chat";
          chat_id ← field chat "id";
          match chat_id with
          | JNull => None
          | _ => Some (chat_id, default JNull (field message "text"))
          end
      end
  | _ => None
  end.

(** One delivery after another, each with the collaborators as they
    are at that time; a delivery that raises leaves what it leaves and
    the process serves the next one. *)
Definition after_deliveries (ops : StrOps) (w : world) (deliveries : list (env * json)) : world :=
  fold_left (fun w d => snd (webhook ops d.1 d.2 w)) deliveries w.

(** The chat an outbound call names. *)
Definition recipient (r : request) : option json :=
  match r with
  | PostJson _ payload => field payload "chat_id"
  | PostParams _ params => field params "chat_id"
  end.

(** The text of an outbound message. *)
Definition message_text (r : request) : option json :=
  match r with
  | PostJson "sendMessage" payload => field payload "text"
  | _ => None
  end.

(** The keyboard of an outbound message. *)
Definition message_keyboard (r : request) : option json :=
  match r with
  | PostJson "sendMessage" payload => field payload "reply_markup"
  | _ => None
  end.

(** The callback data of the buttons of an inline keyboard, row by
    row. *)
Definition button_data (rows : json) : list json :=
  match rows with
  | JArr rs =>
      flat_map (fun row => match row with
                           | JArr bs => omap (fun b => field b "callback_data") bs
                           | _ => []
                           end) rs
  | _ => []
  end.

(** A photo message: a chat id and no text. *)
Definition photo_update (chat_id : Z) : json :=
  JObj [("update_id", JNum 4);
        ("message", JObj [("message_id", JNum 9);
                          ("chat", JObj [("id", JNum chat_id)]);
                          ("photo", JArr [JObj [("file_id", JStr "AgAD")]])])].

(** A button press of a game message: the platform sends
    [game_short_name] in place of [data]. *)
Definition game_button_update (chat_id : Z) : json :=
  JObj [("update_id", JNum 5);
        ("callback_query",
          JObj [("id", JStr "q2");
                ("message", JObj [("message_id", JNum 8);
                                  ("chat", JObj [("id", JNum chat_id)])]);
                ("game_short_name", JStr "snake")])].

(** An environment with the token under its second name only. *)
Definition sample_environ : gmap string string :=
  <["BOT_TOKEN" := ""]> (<["TELEGRAM_BOT_TOKEN" := "123:abc"]>
    (<["OPENAI_API_KEY" := "sk-test"]> ∅)).

(** Three deliveries: a turn while the completion service is down, a
    button press, a photo while the transport is down. *)
Definition sample_deliveries : list (env * json) :=
  [(env_completion_down, text_update 5 "hello");
   (env_up, button_update 5 "mode:fitness");
   (env_typing_down, photo_update 6)].

(** * Properties *)

(** ** The session store *)

Section Slices.

Context {A : Type}.
Implicit Types (l : list A) (n : nat).

Lemma slice_last_length n l : length (slice_last n l) = Nat.min n (length l).
Proof. unfold slice_last. rewrite length_drop. lia. Qed.

Lemma slice_last_short n l : length l <= n -> slice_last n l = l.
Proof.
  intros H. unfold slice_last.
  replace (length l - n) with 0 by lia. reflexivity.
Qed.

Lemma slice_last_app n l1 l2 :
  length l2 <= n -> slice_last n (l1 ++ l2) = slice_last (n - length l2) l1 ++ l2.
Proof.
  intros H. unfold slice_last. rewrite length_app, drop_app.
  replace (length l1 + length l2 - n) with (length l1 - (n - length l2)) by lia.
  replace (length l1 - (n - length l2) - length l1) with 0 by lia.
  reflexivity.
Qed.

Lemma slice_last_slice_last m n l :
  m <= n -> slice_last m (slice_last n l) = slice_last m l.
Proof.
  intros H. unfold slice_last. rewrite length_drop, drop_drop.
  f_equal. lia.
Qed.

(** Trimming after every append is trimming once at the end. *)
Lemma slice_last_snoc n l x :
  0 < n -> slice_last n (slice_last n l ++ [x]) = slice_last n (l ++ [x]).
Proof.
  intros H. rewrite !slice_last_app by (simpl; lia).
  rewrite slice_last_slice_last by lia. reflexivity.
Qed.

Lemma slice_last_app_slice n l1 l2 :
  slice_last n (slice_last n l1 ++ l2) = slice_last n (l1 ++ l2).
Proof.
  destruct (Nat.le_gt_cases (length l2) n) as [Hle|Hgt].
  - rewrite !slice_last_app by exact Hle.
    rewrite slice_last_slice_last by lia. reflexivity.
  - unfold slice_last at 1 3. rewrite !length_app, !drop_app_ge.
    + f_equal. rewrite slice_last_length. lia.
    + lia.
    + rewrite slice_last_length. lia.
Qed.

Lemma slice_last_suffix n l : exists dropped, l = dropped ++ slice_last n l.
Proof. exists (take (length l - n) l). unfold slice_last. symmetry. apply take_drop. Qed.

End Slices.

Lemma to_key_cases chat_id :
  (exists k, to_key chat_id = Returned k) \/ to_key chat_id = Raised TypeError.
Proof. destruct chat_id; simpl; eauto. Qed.

(** What one call does to the world, for a hashable chat id. *)
Lemma append_and_trim_run chat_id k r c w :
  to_key chat_id = Returned k ->
  append_and_trim chat_id r c w =
    (Returned tt,
     World (<[k := slice_last (MAX_TURNS * 2) (history w k ++ [Entry r c])]> (conversations w))
           (user_modes w) (sent w)).
Proof.
  intros Hk. unfold append_and_trim, get_history, history, bind, lift.
  rewrite Hk. cbn [get_world].
  destruct (conversations w !! k) as [hist|] eqn:Hh; cbn -[slice_last Nat.ltb MAX_TURNS].
  - destruct (Nat.ltb_spec (MAX_TURNS * 2) (length (hist ++ [Entry r c]))) as [Hlt|Hle];
      cbn -[slice_last MAX_TURNS].
    + rewrite insert_insert_eq. reflexivity.
    + rewrite slice_last_short by exact Hle. reflexivity.
  - rewrite insert_insert_eq. reflexivity.
Qed.

Lemma append_and_trim_unhashable chat_id r c w :
  to_key chat_id = Raised TypeError ->
  append_and_trim chat_id r c w = (Raised TypeError, w).
Proof.
  intros Hk. unfold append_and_trim, get_history, bind, lift. rewrite Hk. reflexivity.
Qed.

Lemma history_after_append chat_id k k' r c w :
  to_key chat_id = Returned k ->
  history (snd (append_and_trim chat_id r c w)) k' =
    if decide (k = k') then slice_last (MAX_TURNS * 2) (history w k ++ [Entry r c])
    else history w k'.
Proof.
  intros Hk. rewrite (append_and_trim_run _ _ _ _ _ Hk). unfold history at 1. cbn [snd conversations].
  rewrite lookup_insert. destruct (decide (k = k')); reflexivity.
Qed.

Lemma append_and_trim_bounded chat_id r c w :
  bounded w -> bounded (snd (append_and_trim chat_id r c w)).
Proof.
  intros Hw k'. destruct (to_key_cases chat_id) as [[k Hk]|Hk].
  - rewrite (history_after_append _ _ _ _ _ _ Hk).
    destruct (decide (k = k')); [|apply Hw].
    rewrite slice_last_length. change (MAX_TURNS * 2) with 20.
    change (2 * MAX_TURNS) with 20. lia.
  - rewrite (append_and_trim_unhashable _ _ _ _ Hk). apply Hw.
Qed.

Lemma after_appends_bounded calls : forall w, bounded w -> bounded (after_appends w calls).
Proof.
  induction calls as [|[[chat_id r] c] calls IH]; intros w Hw; [exact Hw|].
  apply IH, append_and_trim_bounded, Hw.
Qed.

Lemma initial_world_bounded : bounded initial_world.
Proof.
  intros k. unfold history, initial_world. cbn [conversations].
  rewrite lookup_empty. cbn. lia.
Qed.

(** C4: one call of [append_and_trim] stores, for its chat, the last
    [2 * MAX_TURNS = 20] entries of the old history followed by the new
    entry: no more than 20 entries, a suffix of what was there, the
    oldest entries being the dropped ones; and whatever calls are made
    from process start on, for whatever chats, every chat's stored
    history holds at most 20 entries after each of them. *)
Theorem history_bounded_by_max_turns :
  (forall chat_id k r c w,
      to_key chat_id = Returned k ->
      let stored := history (snd (append_and_trim chat_id r c w)) k in
      stored = slice_last 20 (history w k ++ [Entry r c])
      /\ length stored <= 2 * MAX_TURNS
      /\ exists dropped, history w k ++ [Entry r c] = dropped ++ stored)
  /\ (forall calls k, length (history (after_appends initial_world calls) k) <= 20).
Proof.
  split.
  - intros chat_id k r c w Hk stored. subst stored.
    rewrite (history_after_append _ _ _ _ _ _ Hk), decide_True by reflexivity.
    change (MAX_TURNS * 2) with 20. split; [reflexivity|]. split.
    + rewrite slice_last_length. change (2 * MAX_TURNS) with 20. lia.
    + apply slice_last_suffix.
  - intros calls k.
    apply (after_appends_bounded calls initial_world initial_world_bounded k).
Qed.

Lemma history_bounded_by_max_turns_witness :
  to_key (JNum 5) = Returned (KInt 5)
  /\ history (snd (append_and_trim (JNum 5) "user" "hi" initial_world)) (KInt 5)
     = slice_last 20 (history initial_world (KInt 5) ++ [Entry "user" "hi"]).
Proof.
  split; [reflexivity|].
  exact (proj1 (proj1 history_bounded_by_max_turns
                  (JNum 5) (KInt 5) "user" "hi" initial_world eq_refl)).
Defined.

(** Appending a run of entries for one chat keeps the last 20 of the
    old history followed by the run. *)
Lemma after_appends_for chat_id k entries :
  to_key chat_id = Returned k ->
  forall w, length (history w k) <= 20 ->
  history (after_appends w (appends_for chat_id entries)) k
  = slice_last 20 (history w k ++ entries).
Proof.
  intros Hk. induction entries as [|x entries IH]; intros w Hw.
  - cbn [appends_for map after_appends fold_left]. rewrite app_nil_r.
    symmetry. apply slice_last_short, Hw.
  - cbn [appends_for map after_appends fold_left fst snd].
    change (fold_left _ (map _ entries) ?w0) with (after_appends w0 (appends_for chat_id entries)).
    rewrite IH.
    + rewrite (history_after_append _ _ _ _ _ _ Hk), decide_True by reflexivity.
      change (MAX_TURNS * 2) with 20. destruct x as [r c]. cbn [role content].
      rewrite slice_last_app_slice, <- app_assoc. reflexivity.
    + rewrite (history_after_append _ _ _ _ _ _ Hk), decide_True by reflexivity.
      rewrite slice_last_length. change (MAX_TURNS * 2) with 20. lia.
Qed.

(** C7: with [MAX_TURNS = 10], fifty calls of [append_and_trim] that
    append 25 user and assistant pairs for a chat whose history is
    empty leave exactly pairs 16 to 25 (entries 31 to 50) stored, in
    the order they were appended. *)
Theorem last_ten_pairs_remain chat_id k (u a : nat -> string) w :
  to_key chat_id = Returned k ->
  history w k = [] ->
  MAX_TURNS = 10
  /\ length (appends_for chat_id (turn_pairs u a 1 25)) = 50
  /\ history (after_appends w (appends_for chat_id (turn_pairs u a 1 25))) k
     = turn_pairs u a 16 10.
Proof.
  intros Hk Hempty. split; [reflexivity|]. split; [reflexivity|].
  rewrite (after_appends_for _ _ _ Hk) by (rewrite Hempty; cbn; lia).
  rewrite Hempty. reflexivity.
Qed.

Lemma last_ten_pairs_remain_witness :
  history (after_appends initial_world
             (appends_for (JNum 5)
                (turn_pairs (fun i => String (ascii_of_nat (64 + i)) "?")
                            (fun i => String (ascii_of_nat (96 + i)) ".") 1 25)))
          (KInt 5)
  = turn_pairs (fun i => String (ascii_of_nat (64 + i)) "?")
               (fun i => String (ascii_of_nat (96 + i)) ".") 16 10.
Proof.
  exact (proj2 (proj2 (last_ten_pairs_remain (JNum 5) (KInt 5) _ _ initial_world
                         eq_refl eq_refl))).
Defined.

(** ** The dispatcher *)

Section Dispatch.

Variable ops : StrOps.
Variable e : env.

Lemma http_post_up r w :
  post e r <> NetworkError ->
  http_post e r w =
    (Returned tt, World (conversations w) (user_modes w) (sent w ++ [r])).
Proof. intros H. unfold http_post. destruct (post e r); [reflexivity|congruence]. Qed.

Lemma http_post_down r w :
  post e r = NetworkError ->
  http_post e r w =
    (Raised TransportError, World (conversations w) (user_modes w) (sent w ++ [r])).
Proof. intros H. unfold http_post. rewrite H. reflexivity. Qed.

Lemma callback_query_fields update chat_id cq_id d :
  callback_query_of update = Some (chat_id, cq_id, d) ->
  exists cq message chat,
    py_in "callback_query" update = Returned true
    /\ py_getitem update "callback_query" = Returned cq
    /\ py_getitem cq "message" = Returned message
    /\ py_getitem message "chat" = Returned chat
    /\ py_getitem chat "id" = Returned chat_id
    /\ py_getitem cq "data" = Returned (JStr d)
    /\ py_getitem cq "id" = Returned cq_id.
Proof.
  unfold callback_query_of, field. intros H.
  destruct (py_getitem update "callback_query") as [cq|] eqn:H1; [|discriminate].
  cbn [mbind option_bind] in H.
  destruct (py_getitem cq "message") as [message|] eqn:H2; [|discriminate].
  cbn [mbind option_bind] in H.
  destruct (py_getitem message "chat") as [chat|] eqn:H3; [|discriminate].
  cbn [mbind option_bind] in H.
  destruct (py_getitem chat "id") as [cid|] eqn:H4; [|discriminate].
  cbn [mbind option_bind] in H.
  destruct (py_getitem cq "data") as [data|] eqn:H5; [|discriminate].
  cbn [mbind option_bind] in H.
  destruct (py_getitem cq "id") as [qid|] eqn:H6; [|discriminate].
  cbn [mbind option_bind] in H.
  destruct data; try discriminate. injection H as -> -> ->.
  exists cq, message, chat. repeat split; try assumption.
  destruct update; try discriminate. unfold py_getitem in H1. unfold py_in.
  destruct (assoc "callback_query" kvs); [|discriminate].
  reflexivity.
Qed.

(** The handler on a button press, up to the test on its data. *)
Lemma webhook_callback_query update chat_id cq_id d w :
  callback_query_of update = Some (chat_id, cq_id, d) ->
  startswith "mode:" d = true ->
  webhook ops e update w =
    match py_index (split ":" d) 1 with
    | Returned mode_choice =>
        if in_modes mode_choice then
          (user_modes_set chat_id mode_choice ;;;
           conversations_pop chat_id ;;;
           answer_callback_query e cq_id (JStr ("Mode set to " +:+ mode_choice)) ;;;
           send_message e chat_id
             ("✅ Mode switched to *" +:+ title ops mode_choice +:+ "*") main_keyboard ;;;
           ret OK) w
        else (Returned OK, w)
    | Raised x => (Raised x, w)
    end.
Proof.
  intros Hcq Hmode.
  destruct (callback_query_fields _ _ _ _ Hcq)
    as (cq & message & chat & Hin & H1 & H2 & H3 & H4 & H5 & H6).
  unfold webhook, callback_part, bind, lift.
  rewrite Hin, H1, H2, H3, H4, H5, H6.
  cbn [py_startswith py_split]. rewrite Hmode.
  destruct (py_index (split ":" d) 1) as [mode_choice|x]; [|reflexivity].
  destruct (in_modes mode_choice); [|reflexivity].
  unfold bind, ret.
  repeat match goal with
         | |- context [match ?m ?w0 with _ => _ end] =>
             lazymatch m with
             | user_modes_set _ _ => destruct (m w0) as [[]]
             | conversations_pop _ => destruct (m w0) as [[]]
             | answer_callback_query _ _ _ => destruct (m w0) as [[]]
             | send_message _ _ _ _ => destruct (m w0) as [[]]
             end
         end; reflexivity.
Qed.

Lemma user_modes_set_run chat_id k name w :
  to_key chat_id = Returned k ->
  user_modes_set chat_id name w =
    (Returned tt, World (conversations w) (<[k := name]> (user_modes w)) (sent w)).
Proof. intros Hk. unfold user_modes_set, bind, lift. rewrite Hk. reflexivity. Qed.

Lemma conversations_pop_run chat_id k w :
  to_key chat_id = Returned k ->
  conversations_pop chat_id w =
    (Returned tt, World (delete k (conversations w)) (user_modes w) (sent w)).
Proof. intros Hk. unfold conversations_pop, bind, lift. rewrite Hk. reflexivity. Qed.

Lemma get_mode_run chat_id k w :
  to_key chat_id = Returned k ->
  get_mode chat_id w = (Returned (default DEFAULT_MODE (user_modes w !! k)), w).
Proof. intros Hk. unfold get_mode, bind, lift. rewrite Hk. reflexivity. Qed.

Lemma get_history_present chat_id k hist w :
  to_key chat_id = Returned k ->
  conversations w !! k = Some hist ->
  get_history chat_id w = (Returned hist, w).
Proof.
  intros Hk Hh. unfold get_history, bind, lift. rewrite Hk. cbn [get_world].
  rewrite Hh. reflexivity.
Qed.

Lemma send_message_run chat_id text keyboard w :
  truthy keyboard = true ->
  send_message e chat_id text keyboard w =
    http_post e (message_request chat_id text keyboard) w.
Proof. intros H. unfold send_message. rewrite H. reflexivity. Qed.

Lemma in_modes_cases name :
  in_modes name = true ->
  name = "general" \/ name = "restaurant" \/ name = "fitness" \/ name = "realestate".
Proof.
  unfold in_modes. cbn [modes map fst existsb]. intros H.
  repeat match type of H with
         | (_ || _)%bool = true => apply orb_prop in H; destruct H as [H|H]
         end;
    try (apply String.eqb_eq in H; tauto).
  discriminate.
Qed.

(** The data of a button of the mode keyboard names its mode in the
    second field. *)
Lemma registered_mode_field name :
  in_modes name = true ->
  py_index (split ":" ("mode:" +:+ name)) 1 = Returned name.
Proof.
  intros H. destruct (in_modes_cases _ H) as [->|[->|[->| ->]]]; reflexivity.
Qed.

(** C1: for a button press whose data is [mode:<name>] with [<name>]
    registered, the handler sets the chat's mode to [<name>] (and
    clears its history), acknowledges the callback with
    [Mode set to <name>] and sends the confirmation message; the
    keyboard attached to that message is the persistent reply
    keyboard of [main_keyboard], and not the mode-selection inline
    keyboard that the handler has just rebuilt with the checkmark on
    [<name>]. *)
Theorem mode_switch_attaches_main_keyboard update chat_id k cq_id name w :
  callback_query_of update = Some (chat_id, cq_id, "mode:" +:+ name) ->
  in_modes name = true ->
  to_key chat_id = Returned k ->
  (forall r, post e r <> NetworkError) ->
  webhook ops e update w =
    (Returned OK,
     World (delete k (conversations w)) (<[k := name]> (user_modes w))
       (sent w ++
          [PostJson "answerCallbackQuery"
             (JObj [("callback_query_id", cq_id);
                    ("text", JStr ("Mode set to " +:+ name))]);
           message_request chat_id
             ("✅ Mode switched to *" +:+ title ops name +:+ "*") main_keyboard]))
  /\ main_keyboard <> mode_keyboard ops name.
Proof.
  intros Hcq Hname Hk Hup. split; [|discriminate].
  rewrite (webhook_callback_query _ _ _ _ _ Hcq) by reflexivity.
  rewrite (registered_mode_field _ Hname), Hname.
  unfold bind.
  rewrite (user_modes_set_run _ _ _ _ Hk), (conversations_pop_run _ _ _ Hk).
  unfold answer_callback_query. replace (truthy _) with true
    by (destruct (in_modes_cases _ Hname) as [->|[->|[->| ->]]]; reflexivity).
  rewrite http_post_up by apply Hup.
  rewrite send_message_run by reflexivity.
  rewrite http_post_up by apply Hup.
  cbn [conversations user_modes sent ret]. rewrite <- app_assoc. reflexivity.
Qed.

(** *** Messages *)

Lemma webhook_text_message update chat_id text w :
  text_message_of update = Some (chat_id, text) ->
  webhook ops e update w = (send_typing e chat_id ;;; text_part ops e chat_id text) w.
Proof.
  unfold text_message_of, field. intros H.
  destruct update as [| | | | |kvs]; try discriminate.
  destruct (assoc "callback_query" kvs) eqn:Hcq; [discriminate|].
  destruct (assoc "message" kvs) as [message|] eqn:Hm; [|discriminate].
  cbn [mbind option_bind] in H.
  destruct (py_getitem message "chat") as [chat|] eqn:H1; [|discriminate].
  cbn [mbind option_bind] in H.
  destruct (py_getitem chat "id") as [cid|] eqn:H2; [|discriminate].
  cbn [mbind option_bind] in H.
  destruct (py_getitem message "text") as [t|] eqn:H3; [|discriminate].
  cbn [mbind option_bind] in H.
  destruct message as [| | | | |mkvs]; try discriminate.
  destruct chat as [| | | | |ckvs]; try discriminate.
  unfold py_getitem in H1, H2, H3.
  destruct (assoc "chat" mkvs) eqn:Hchat; [|discriminate].
  destruct (assoc "id" ckvs) eqn:Hid; [|discriminate].
  destruct (assoc "text" mkvs) eqn:Htext; [|discriminate].
  injection H1 as ->. injection H2 as ->. injection H3 as ->.
  assert (truthy (JObj mkvs) = true) as Htruthy
    by (destruct mkvs; [discriminate|reflexivity]).
  unfold webhook, bind, lift, py_in, py_get.
  rewrite Hcq, Hm. cbn [bool_decide decide_rel ret].
  rewrite Htruthy, Hchat, Hid, Htext. cbn [negb].
  destruct cid; try discriminate; destruct t; try discriminate;
    injection H as <- <-; reflexivity.
Qed.

Lemma startswith_app p : forall s,
  startswith p s = true -> exists rest, s = p +:+ rest.
Proof.
  induction p as [|a p IH]; intros s H.
  - exists s. reflexivity.
  - destruct s as [|b s]; [discriminate|]. cbn [startswith] in H.
    apply andb_prop in H as [Hab Hp]. apply Ascii.eqb_eq in Hab as ->.
    destruct (IH _ Hp) as [rest ->]. exists rest. reflexivity.
Qed.

(** A text recognised as [/reset] was not recognised as [/start]. *)
Lemma reset_is_not_start t :
  startswith "/reset" t = true -> startswith "/start" t = false.
Proof. intros H. destruct (startswith_app _ _ H) as [rest ->]. reflexivity. Qed.

Lemma mode_is_not_prefixed t :
  t = "/mode" \/ t = "⚙️ mode" ->
  startswith "/start" t = false /\ startswith "/reset" t = false.
Proof. intros [->| ->]; split; reflexivity. Qed.

(** The free-form turn, for a hashable chat id. *)
Lemma chat_turn_run chat_id k text w :
  to_key chat_id = Returned k ->
  let h1 := slice_last 20 (history w k ++ [Entry "user" text]) in
  let mode := default DEFAULT_MODE (user_modes w !! k) in
  let reply := completion_reply e (turn_messages mode h1) in
  let w2 := World (<[k := slice_last 20 (h1 ++ [Entry "assistant" reply])]> (conversations w))
                  (user_modes w) (sent w) in
  chat_turn ops e chat_id text w =
    (http_post e (message_request chat_id (labelled_reply ops mode reply) main_keyboard) ;;;
     ret OK) w2.
Proof.
  intros Hk h1 mode reply w2. unfold chat_turn.
  unfold bind at 1. rewrite (append_and_trim_run _ _ _ _ _ Hk).
  unfold bind at 1. rewrite (get_mode_run _ _ _ Hk).
  unfold bind at 1. unfold lift. cbn [modes_getitem find modes fst snd String.eqb DEFAULT_MODE Ascii.eqb Bool.eqb].
  cbn [user_modes conversations].
  unfold bind at 1.
  rewrite (get_history_present _ k h1) by (exact Hk || (cbn [conversations]; apply lookup_insert_eq)).
  unfold bind at 1. rewrite (append_and_trim_run _ _ _ _ _ Hk).
  unfold history. cbn [conversations user_modes sent]. rewrite lookup_insert_eq.
  cbn [default]. rewrite insert_insert_eq.
  unfold bind. rewrite send_message_run by reflexivity. reflexivity.
Qed.

Lemma http_post_cases r w :
  exists o, http_post e r w = (o, with_sent w r).
Proof. unfold http_post, with_sent. destruct (post e r); eauto. Qed.

Lemma typing_up chat_id w :
  post e (typing_request chat_id) <> NetworkError ->
  send_typing e chat_id w = (Returned tt, with_sent w (typing_request chat_id)).
Proof. intros H. unfold send_typing. apply http_post_up, H. Qed.

(** C2, as the code has it: the typing indicator is the first call
    of the handling of a text message.  Its response is discarded, so
    a response of any status lets the handling go on with the rest of
    the handler; an exception of the transport call is not caught: the
    handler raises it, sends nothing more and leaves both dictionaries
    as they were. *)
Theorem typing_indicator_failure_propagates update chat_id text w :
  text_message_of update = Some (chat_id, text) ->
  (post e (typing_request chat_id) = NetworkError ->
     webhook ops e update w =
       (Raised TransportError,
        World (conversations w) (user_modes w) (sent w ++ [typing_request chat_id])))
  /\ (forall status,
        post e (typing_request chat_id) = Response status ->
        webhook ops e update w =
          text_part ops e chat_id text
            (World (conversations w) (user_modes w) (sent w ++ [typing_request chat_id]))).
Proof.
  intros Hmsg. rewrite (webhook_text_message _ _ _ _ Hmsg).
  unfold bind, send_typing, http_post. fold (typing_request chat_id). split.
  - intros ->. reflexivity.
  - intros status ->. reflexivity.
Qed.

(** C3: an update whose [callback_query] has no [message] makes the
    handler raise [KeyError]: the button-press part subscripts the
    fields it expects, where the message part reads them with
    [get]. *)
Theorem callback_without_message_raises update c w :
  py_getitem update "callback_query" = Returned (JObj c) ->
  assoc "message" c = None ->
  webhook ops e update w = (Raised (KeyError "message"), w).
Proof.
  intros Hcq Hm. destruct update as [| | | | |kvs]; try discriminate.
  unfold py_getitem in Hcq.
  destruct (assoc "callback_query" kvs) as [cq|] eqn:Hkvs; [|discriminate].
  injection Hcq as ->.
  unfold webhook, callback_part, bind, lift, py_in, py_getitem.
  rewrite Hkvs. cbn [bool_decide decide_rel]. rewrite Hm. reflexivity.
Qed.

(** What the message part does with the payloads it guards against. *)
Lemma update_without_message_ignored kvs w :
  assoc "callback_query" kvs = None ->
  assoc "message" kvs = None ->
  webhook ops e (JObj kvs) w = (Returned OK, w).
Proof.
  intros Hcq Hm. unfold webhook, bind, lift, py_in, py_get.
  rewrite Hcq, Hm. reflexivity.
Qed.

Lemma message_without_chat_id_ignored kvs mkvs w :
  assoc "callback_query" kvs = None ->
  assoc "message" kvs = Some (JObj mkvs) ->
  assoc "chat" mkvs = None ->
  webhook ops e (JObj kvs) w = (Returned OK, w).
Proof.
  intros Hcq Hm Hchat. unfold webhook, bind, lift, py_in, py_get.
  rewrite Hcq, Hm. cbn [bool_decide decide_rel ret].
  destruct (truthy (JObj mkvs)); [|reflexivity].
  cbn [negb]. rewrite Hchat. cbn [assoc].
  destruct (assoc "text" mkvs); reflexivity.
Qed.

(** C5: a valid mode button clears the history of its chat and
    stores the new mode; [/reset] leaves the stored modes as they are
    and, once the typing indicator has gone out, clears the history
    of its chat; neither touches the history or the mode of another
    chat. *)
Theorem mode_switch_and_reset_frame update chat_id k w :
  to_key chat_id = Returned k ->
  (forall cq_id name,
      callback_query_of update = Some (chat_id, cq_id, "mode:" +:+ name) ->
      in_modes name = true ->
      let w' := snd (webhook ops e update w) in
      conversations w' !! k = None
      /\ history w' k = []
      /\ user_modes w' !! k = Some name
      /\ forall k', k' <> k ->
           conversations w' !! k' = conversations w !! k'
           /\ user_modes w' !! k' = user_modes w !! k')
  /\ (forall text,
        text_message_of update = Some (chat_id, text) ->
        startswith "/reset" (lower ops (strip ops text)) = true ->
        let w' := snd (webhook ops e update w) in
        (post e (typing_request chat_id) <> NetworkError ->
           conversations w' !! k = None /\ history w' k = [])
        /\ user_modes w' = user_modes w
        /\ forall k', k' <> k -> conversations w' !! k' = conversations w !! k').
Proof.
  intros Hk. split.
  - intros cq_id name Hcq Hname w'. subst w'.
    rewrite (webhook_callback_query _ _ _ _ _ Hcq) by reflexivity.
    rewrite (registered_mode_field _ Hname), Hname.
    unfold bind.
    rewrite (user_modes_set_run _ _ _ _ Hk), (conversations_pop_run _ _ _ Hk).
    unfold answer_callback_query, send_message.
    match goal with
    | |- context [http_post e ?r ?w0] =>
        destruct (http_post_cases r w0) as [[[]|x] ->]
    end.
    2:{ unfold history. cbn [snd with_sent conversations user_modes].
        rewrite lookup_delete_eq, lookup_insert_eq. repeat split; try reflexivity.
        - apply lookup_delete_ne. congruence.
        - apply lookup_insert_ne. congruence. }
    match goal with
    | |- context [http_post e ?r ?w0] =>
        destruct (http_post_cases r w0) as [[[]|x] ->]
    end;
      unfold history; cbn [snd with_sent conversations user_modes ret];
      rewrite lookup_delete_eq, lookup_insert_eq; repeat split; try reflexivity;
      try (apply lookup_delete_ne; congruence);
      try (apply lookup_insert_ne; congruence).
  - intros text Hmsg Hreset w'. subst w'.
    rewrite (webhook_text_message _ _ _ _ Hmsg).
    unfold bind, send_typing.
    destruct (post e (typing_request chat_id)) as [status|] eqn:Hpost.
    + fold (typing_request chat_id). rewrite http_post_up by congruence.
      unfold text_part. rewrite (reset_is_not_start _ Hreset), Hreset.
      unfold bind. rewrite (conversations_pop_run _ _ _ Hk).
      unfold send_message.
      match goal with
      | |- context [http_post e ?r ?w0] =>
          destruct (http_post_cases r w0) as [[[]|x] ->]
      end;
        unfold history; cbn [snd with_sent conversations user_modes ret];
        rewrite lookup_delete_eq; repeat split; try reflexivity;
        intros; apply lookup_delete_ne; congruence.
    + fold (typing_request chat_id). rewrite http_post_down by exact Hpost.
      cbn [snd conversations user_modes]. repeat split; try reflexivity; congruence.
Qed.

(** C6, as the code has it: the mode a button names is the field of
    its data between the first colon and the next one (all of
    [<name>] when [<name>] holds no colon).  When that field is not a
    registered mode the handler changes neither dictionary, makes no
    outbound call and returns [{"ok": True}]. *)
Theorem unregistered_mode_field_ignored update chat_id cq_id data choice w :
  callback_query_of update = Some (chat_id, cq_id, data) ->
  startswith "mode:" data = true ->
  nth_error (split ":" data) 1 = Some choice ->
  in_modes choice = false ->
  webhook ops e update w = (Returned OK, w).
Proof.
  intros Hcq Hmode Hfield Hchoice.
  rewrite (webhook_callback_query _ _ _ _ _ Hcq Hmode).
  unfold py_index. rewrite Hfield, Hchoice. reflexivity.
Qed.

(** C8: when the completion call of a free-form text message fails,
    whatever the error, the reply sent is the fixed apology under the
    mode label, with the persistent keyboard, and the apology is the
    assistant turn appended to the trimmed history; the text of the
    error appears in neither. *)
Theorem completion_failure_sends_apology update chat_id k text err w :
  text_message_of update = Some (chat_id, text) ->
  to_key chat_id = Returned k ->
  let t := lower ops (strip ops text) in
  startswith "/start" t = false ->
  startswith "/reset" t = false ->
  t <> "/mode" ->
  t <> "⚙️ mode" ->
  post e (typing_request chat_id) <> NetworkError ->
  let mode := default DEFAULT_MODE (user_modes w !! k) in
  let h1 := slice_last 20 (history w k ++ [Entry "user" text]) in
  create_completion e (turn_messages mode h1) = CompletionError err ->
  let reply :=
    message_request chat_id (labelled_reply ops mode "Sorry, I ran into an issue.")
      main_keyboard in
  let w' := snd (webhook ops e update w) in
  history w' k = slice_last 20 (h1 ++ [Entry "assistant" "Sorry, I ran into an issue."])
  /\ last (history w' k) = Some (Entry "assistant" "Sorry, I ran into an issue.")
  /\ sent w' = sent w ++ [typing_request chat_id; reply]
  /\ (post e reply <> NetworkError -> fst (webhook ops e update w) = Returned OK).
Proof.
  intros Hmsg Hk t Hstart Hreset Hm1 Hm2 Htyping mode h1 Hfail reply w'.
  assert (webhook ops e update w =
          (http_post e reply ;;; ret OK)
            (World (<[k := slice_last 20 (h1 ++ [Entry "assistant" apology])]> (conversations w))
                   (user_modes w) (sent w ++ [typing_request chat_id]))) as Hrun.
  { rewrite (webhook_text_message _ _ _ _ Hmsg).
    unfold bind at 1. rewrite (typing_up _ _ Htyping).
    unfold text_part. fold t. rewrite Hstart, Hreset.
    cbn [existsb]. apply String.eqb_neq in Hm1, Hm2. rewrite Hm1, Hm2. cbn [orb].
    rewrite (chat_turn_run _ _ _ _ Hk).
    cbn [with_sent conversations user_modes sent history].
    unfold completion_reply.
    change (history (with_sent w (typing_request chat_id)) k) with (history w k).
    fold h1. fold mode. rewrite Hfail. reflexivity. }
  subst w'. rewrite Hrun. unfold bind.
  assert (last (slice_last 20 (h1 ++ [Entry "assistant" apology]))
          = Some (Entry "assistant" apology)) as Hlast.
  { rewrite slice_last_app by (cbn; lia). apply last_snoc. }
  destruct (post e reply) eqn:Hpost.
  - rewrite http_post_up by congruence.
    unfold history. cbn [fst snd conversations sent ret]. rewrite lookup_insert_eq.
    cbn [default]. rewrite <- app_assoc. repeat split; try reflexivity. exact Hlast.
  - rewrite http_post_down by exact Hpost.
    unfold history. cbn [fst snd conversations sent ret]. rewrite lookup_insert_eq.
    cbn [default]. rewrite <- app_assoc. repeat split; try reflexivity; [exact Hlast|].
    congruence.
Qed.

(** A button press that carries the chat id of its message, its id
    and data that does not start with [mode:], in an update with no
    top-level [message], changes neither dictionary, makes no outbound
    call and returns [{"ok": True}]. *)
Theorem other_button_without_message_ignored update chat_id cq_id data w :
  callback_query_of update = Some (chat_id, cq_id, data) ->
  startswith "mode:" data = false ->
  field update "message" = None ->
  webhook ops e update w = (Returned OK, w).
Proof.
  intros Hcq Hmode Hnone.
  destruct (callback_query_fields _ _ _ _ Hcq)
    as (cq & message & chat & Hin & H1 & H2 & H3 & H4 & H5 & H6).
  unfold webhook, callback_part, bind, lift.
  rewrite Hin, H1, H2, H3, H4, H5, H6.
  cbn [py_startswith]. rewrite Hmode. cbn [ret].
  destruct update as [| | | | |kvs]; try discriminate.
  unfold field, py_getitem in Hnone. unfold py_get.
  destruct (assoc "message" kvs); [discriminate|]. reflexivity.
Qed.

(** C10: an update that contains a [callback_query] whose data does
    not start with [mode:], and no top-level [message], is not always
    acknowledged: when the callback query has no [message] of its own
    the handler raises [KeyError] on it before it looks at the data,
    where the message part would have returned [{"ok": True}] for the
    same update; nothing has changed and nothing has been sent by
    then. *)
Theorem other_button_without_chat_raises update c data w :
  py_getitem update "callback_query" = Returned (JObj c) ->
  assoc "data" c = Some (JStr data) ->
  startswith "mode:" data = false ->
  field update "message" = None ->
  assoc "message" c = None ->
  webhook ops e update w = (Raised (KeyError "message"), w)
  /\ fst (webhook ops e update w) <> Returned OK.
Proof.
  intros Hcq _ _ _ Hm. destruct update as [| | | | |kvs]; try discriminate.
  unfold py_getitem in Hcq.
  destruct (assoc "callback_query" kvs) as [cq|] eqn:Hkvs; [|discriminate].
  injection Hcq as ->.
  assert (webhook ops e (JObj kvs) w = (Raised (KeyError "message"), w)) as ->.
  { unfold webhook, callback_part, bind, lift, py_in, py_getitem.
    rewrite Hkvs. cbn [bool_decide decide_rel]. rewrite Hm. reflexivity. }
  split; [reflexivity|discriminate].
Qed.

(** C9: on the stripped, lowercased text of a message, [/start] and
    [/reset] are recognised by prefix, so a text such as [/starting]
    is a [/start], while the mode keyboard is sent only for a text
    equal to [/mode] or to the lowercased label of the mode button;
    any other text, [/modes] for one, is a conversational turn. *)
Theorem command_recognition update chat_id k text w :
  text_message_of update = Some (chat_id, text) ->
  to_key chat_id = Returned k ->
  post e (typing_request chat_id) <> NetworkError ->
  let t := lower ops (strip ops text) in
  let typing := typing_request chat_id in
  let w' := snd (webhook ops e update w) in
  (startswith "/start" t = true ->
     conversations w' = delete k (conversations w)
     /\ user_modes w' = <[k := "general"]> (user_modes w)
     /\ sent w' = sent w ++ [typing; message_request chat_id welcome main_keyboard])
  /\ (startswith "/reset" t = true ->
       conversations w' = delete k (conversations w)
       /\ user_modes w' = user_modes w
       /\ sent w' = sent w ++
            [typing; message_request chat_id "Memory cleared. Fresh start! ✨" main_keyboard])
  /\ (t = "/mode" \/ t = "⚙️ mode" ->
       conversations w' = conversations w
       /\ user_modes w' = user_modes w
       /\ sent w' = sent w ++
            [typing;
             message_request chat_id "👉 Choose a mode:"
               (mode_keyboard ops (default DEFAULT_MODE (user_modes w !! k)))])
  /\ (startswith "/start" t = false ->
       startswith "/reset" t = false ->
       t <> "/mode" ->
       t <> "⚙️ mode" ->
       let mode := default DEFAULT_MODE (user_modes w !! k) in
       let h1 := slice_last 20 (history w k ++ [Entry "user" text]) in
       let reply := completion_reply e (turn_messages mode h1) in
       history w' k = slice_last 20 (h1 ++ [Entry "assistant" reply])
       /\ user_modes w' = user_modes w
       /\ sent w' = sent w ++
            [typing; message_request chat_id (labelled_reply ops mode reply) main_keyboard]).
Proof.
  intros Hmsg Hk Htyping t typing w'.
  assert (webhook ops e update w = text_part ops e chat_id text (with_sent w typing)) as Hrun.
  { rewrite (webhook_text_message _ _ _ _ Hmsg).
    unfold bind. rewrite (typing_up _ _ Htyping). reflexivity. }
  subst w'. rewrite Hrun. clear Hrun.
  unfold text_part. fold t.
  repeat apply conj.
  - intros ->. unfold bind.
    rewrite (conversations_pop_run _ _ _ Hk), (user_modes_set_run _ _ _ _ Hk).
    rewrite send_message_run by reflexivity.
    match goal with
    | |- context [http_post e ?r ?w0] =>
        destruct (http_post_cases r w0) as [[[]|x] ->]
    end;
      cbn [snd with_sent conversations user_modes sent ret];
      rewrite <- app_assoc; repeat split; reflexivity.
  - intros Hreset. rewrite (reset_is_not_start _ Hreset), Hreset. unfold bind.
    rewrite (conversations_pop_run _ _ _ Hk).
    rewrite send_message_run by reflexivity.
    match goal with
    | |- context [http_post e ?r ?w0] =>
        destruct (http_post_cases r w0) as [[[]|x] ->]
    end;
      cbn [snd with_sent conversations user_modes sent ret];
      rewrite <- app_assoc; repeat split; reflexivity.
  - intros Hmode. destruct (mode_is_not_prefixed _ Hmode) as [-> ->].
    replace (existsb (String.eqb t) ["/mode"; "⚙️ mode"]) with true
      by (destruct Hmode as [-> | ->]; reflexivity).
    unfold bind. rewrite (get_mode_run _ _ _ Hk).
    rewrite send_message_run by reflexivity.
    match goal with
    | |- context [http_post e ?r ?w0] =>
        destruct (http_post_cases r w0) as [[[]|x] ->]
    end;
      cbn [snd with_sent conversations user_modes sent ret];
      rewrite <- app_assoc; repeat split; reflexivity.
  - intros Hstart Hreset Hm1 Hm2.
    rewrite Hstart, Hreset. cbn [existsb].
    apply String.eqb_neq in Hm1, Hm2. rewrite Hm1, Hm2. cbn [orb].
    rewrite (chat_turn_run _ _ _ _ Hk).
    change (history (with_sent w typing) k) with (history w k).
    cbn [with_sent conversations user_modes sent].
    unfold bind.
    match goal with
    | |- context [http_post e ?r ?w0] =>
        destruct (http_post_cases r w0) as [[[]|x] ->]
    end;
      unfold history; cbn [snd with_sent conversations user_modes sent ret];
      rewrite lookup_insert_eq, <- app_assoc; repeat split; reflexivity.
Qed.

End Dispatch.

(** ** The properties on concrete deliveries *)

Lemma env_up_never_raises r : post env_up r <> NetworkError.
Proof. discriminate. Qed.

Lemma mode_switch_attaches_main_keyboard_witness :
  webhook ascii_ops env_up (button_update 5 "mode:fitness") two_chats =
    (Returned OK,
     World (delete (KInt 5) (conversations two_chats))
           (<[KInt 5 := "fitness"]> (user_modes two_chats))
           (sent two_chats ++
              [PostJson "answerCallbackQuery"
                 (JObj [("callback_query_id", JStr "q1");
                        ("text", JStr "Mode set to fitness")]);
               message_request (JNum 5) "✅ Mode switched to *Fitness*" main_keyboard]))
  /\ main_keyboard <> mode_keyboard ascii_ops "fitness".
Proof.
  apply (mode_switch_attaches_main_keyboard ascii_ops env_up
           (button_update 5 "mode:fitness") (JNum 5) (KInt 5) (JStr "q1") "fitness" two_chats);
    [reflexivity | reflexivity | reflexivity | apply env_up_never_raises].
Defined.

(** C2 as stated fails: with the transport down for the typing
    indicator alone, the handling of a plain text message stops at the
    indicator with the transport's exception, where with the transport
    up it returns [{"ok": True}] after storing the turn. *)
Lemma typing_failure_aborts_handling :
  text_message_of (text_update 5 "hello") = Some (JNum 5, "hello")
  /\ post env_typing_down (typing_request (JNum 5)) = NetworkError
  /\ (forall method payload, post env_typing_down (PostJson method payload) = Response 200)
  /\ webhook ascii_ops env_typing_down (text_update 5 "hello") initial_world
     = (Raised TransportError, World ∅ ∅ [typing_request (JNum 5)])
  /\ fst (webhook ascii_ops env_up (text_update 5 "hello") initial_world) = Returned OK
  /\ history (snd (webhook ascii_ops env_up (text_update 5 "hello") initial_world)) (KInt 5)
     = [Entry "user" "hello"; Entry "assistant" "Hello!"].
Proof. repeat split; vm_compute; reflexivity. Qed.

Lemma typing_indicator_failure_propagates_witness :
  webhook ascii_ops env_typing_down (text_update 6 "/reset") two_chats
  = (Raised TransportError,
     World (conversations two_chats) (user_modes two_chats)
           (sent two_chats ++ [typing_request (JNum 6)])).
Proof.
  apply (proj1 (typing_indicator_failure_propagates ascii_ops env_typing_down
                  (text_update 6 "/reset") (JNum 6) "/reset" two_chats eq_refl)).
  reflexivity.
Defined.

Lemma callback_without_message_raises_witness :
  webhook ascii_ops env_up inline_button_update initial_world
  = (Raised (KeyError "message"), initial_world).
Proof.
  apply (callback_without_message_raises ascii_ops env_up inline_button_update
           [("id", JStr "q1"); ("inline_message_id", JStr "AAA"); ("data", JStr "mode:fitness")]);
    reflexivity.
Defined.

Lemma mode_switch_and_reset_frame_witness :
  let w' := snd (webhook ascii_ops env_up (button_update 5 "mode:fitness") two_chats) in
  conversations w' !! KInt 5 = None
  /\ history w' (KInt 5) = []
  /\ user_modes w' !! KInt 5 = Some "fitness"
  /\ forall k', k' <> KInt 5 ->
       conversations w' !! k' = conversations two_chats !! k'
       /\ user_modes w' !! k' = user_modes two_chats !! k'.
Proof.
  apply (proj1 (mode_switch_and_reset_frame ascii_ops env_up
                  (button_update 5 "mode:fitness") (JNum 5) (KInt 5) two_chats eq_refl)
           (JStr "q1") "fitness"); reflexivity.
Defined.

(** C6 as stated fails: [fitness:x] is not a registered mode, and a
    press whose data is [mode:fitness:x] switches the chat to [fitness],
    clears its history and sends the acknowledgement and the
    confirmation. *)
Lemma colon_in_name_switches_mode :
  callback_query_of (button_update 5 "mode:fitness:x")
    = Some (JNum 5, JStr "q1", "mode:" +:+ "fitness:x")
  /\ in_modes "fitness:x" = false
  /\ history two_chats (KInt 5) = [Entry "user" "hi"; Entry "assistant" "Hello!"]
  /\ user_modes two_chats !! KInt 5 = Some "restaurant"
  /\ let w' := snd (webhook ascii_ops env_up (button_update 5 "mode:fitness:x") two_chats) in
     history w' (KInt 5) = []
     /\ user_modes w' !! KInt 5 = Some "fitness"
     /\ sent w' =
          [PostJson "answerCallbackQuery"
             (JObj [("callback_query_id", JStr "q1");
                    ("text", JStr "Mode set to fitness")]);
           message_request (JNum 5) "✅ Mode switched to *Fitness*" main_keyboard].
Proof. repeat split; vm_compute; reflexivity. Qed.

Lemma unregistered_mode_field_ignored_witness :
  webhook ascii_ops env_up (button_update 5 "mode:pirate") two_chats
  = (Returned OK, two_chats).
Proof.
  apply (unregistered_mode_field_ignored ascii_ops env_up
           (button_update 5 "mode:pirate") (JNum 5) (JStr "q1") "mode:pirate" "pirate");
    reflexivity.
Defined.

Lemma completion_failure_sends_apology_witness :
  let w' := snd (webhook ascii_ops env_completion_down (text_update 5 "Any plans?") two_chats) in
  history w' (KInt 5)
  = [Entry "user" "hi"; Entry "assistant" "Hello!";
     Entry "user" "Any plans?"; Entry "assistant" "Sorry, I ran into an issue."]
  /\ sent w' =
       [typing_request (JNum 5);
        message_request (JNum 5)
          (labelled_reply ascii_ops "restaurant" "Sorry, I ran into an issue.")
          main_keyboard].
Proof.
  destruct (completion_failure_sends_apology ascii_ops env_completion_down
              (text_update 5 "Any plans?") (JNum 5) (KInt 5) "Any plans?"
              "rate limit exceeded" two_chats)
    as (Hhist & _ & Hsent & _);
    try reflexivity; try discriminate.
  split; [exact Hhist | exact Hsent].
Defined.

Lemma command_recognition_witness :
  let w' := snd (webhook ascii_ops env_up (text_update 5 "  /STARTing over ") two_chats) in
  conversations w' = delete (KInt 5) (conversations two_chats)
  /\ user_modes w' = <[KInt 5 := "general"]> (user_modes two_chats)
  /\ sent w' = sent two_chats ++
       [typing_request (JNum 5); message_request (JNum 5) welcome main_keyboard].
Proof.
  apply (proj1 (command_recognition ascii_ops env_up
                  (text_update 5 "  /STARTing over ") (JNum 5) (KInt 5) "  /STARTing over "
                  two_chats eq_refl eq_refl (env_up_never_raises _))).
  reflexivity.
Defined.

Lemma other_button_without_message_ignored_witness :
  webhook ascii_ops env_up (button_update 5 "page:2") two_chats = (Returned OK, two_chats).
Proof.
  apply (other_button_without_message_ignored ascii_ops env_up
           (button_update 5 "page:2") (JNum 5) (JStr "q1") "page:2"); reflexivity.
Defined.

Lemma other_button_without_chat_raises_witness :
  webhook ascii_ops env_up inline_page_update two_chats
    = (Raised (KeyError "message"), two_chats)
  /\ fst (webhook ascii_ops env_up inline_page_update two_chats) <> Returned OK.
Proof.
  apply (other_button_without_chat_raises ascii_ops env_up inline_page_update
           [("id", JStr "q1"); ("inline_message_id", JStr "AAA"); ("data", JStr "page:2")]
           "page:2" two_chats); reflexivity.
Defined.

(** * Further properties *)

(** ** Reasoning along a computation *)

Lemma wp_ret {A} (a : A) Q w : Q (Returned a) w -> wp (ret a) Q w.
Proof. exact (fun H => H). Qed.

Lemma wp_lift {A} (o : outcome A) Q w : Q o w -> wp (lift o) Q w.
Proof. exact (fun H => H). Qed.

Lemma wp_bind {A B} (m : M A) (k : A -> M B) Q w :
  wp m (fun o w' => match o with
                    | Returned a => wp (k a) Q w'
                    | Raised x => Q (Raised x) w'
                    end) w ->
  wp (bind m k) Q w.
Proof. unfold wp, bind. destruct (m w) as [[a|x] w']; exact (fun H => H). Qed.

Lemma wp_http_post e r Q w :
  Q (match post e r with
     | Response _ => Returned tt
     | NetworkError => Raised TransportError
     end) (with_sent w r) ->
  wp (http_post e r) Q w.
Proof. unfold wp, http_post, with_sent. destruct (post e r); exact (fun H => H). Qed.

(** The store operations on any chat id, hashable or not. *)
Lemma conversations_pop_any chat_id w :
  conversations_pop chat_id w =
    match to_key chat_id with
    | Returned k => (Returned tt, World (delete k (conversations w)) (user_modes w) (sent w))
    | Raised x => (Raised x, w)
    end.
Proof. unfold conversations_pop, bind, lift. destruct (to_key chat_id); reflexivity. Qed.

Lemma user_modes_set_any chat_id name w :
  user_modes_set chat_id name w =
    match to_key chat_id with
    | Returned k => (Returned tt, World (conversations w) (<[k := name]> (user_modes w)) (sent w))
    | Raised x => (Raised x, w)
    end.
Proof. unfold user_modes_set, bind, lift. destruct (to_key chat_id); reflexivity. Qed.

Lemma get_mode_any chat_id w :
  get_mode chat_id w =
    match to_key chat_id with
    | Returned k => (Returned (default DEFAULT_MODE (user_modes w !! k)), w)
    | Raised x => (Raised x, w)
    end.
Proof. unfold get_mode, bind, lift. destruct (to_key chat_id); reflexivity. Qed.

Lemma get_history_any chat_id w :
  get_history chat_id w =
    match to_key chat_id with
    | Returned k =>
        (Returned (history w k),
         match conversations w !! k with
         | Some _ => w
         | None => World (<[k := []]> (conversations w)) (user_modes w) (sent w)
         end)
    | Raised x => (Raised x, w)
    end.
Proof.
  unfold get_history, history, bind, lift. destruct (to_key chat_id) as [k|x]; [|reflexivity].
  cbn [get_world]. destruct (conversations w !! k); reflexivity.
Qed.

Lemma append_and_trim_any chat_id r c w :
  append_and_trim chat_id r c w =
    match to_key chat_id with
    | Returned k =>
        (Returned tt,
         World (<[k := slice_last (MAX_TURNS * 2) (history w k ++ [Entry r c])]> (conversations w))
               (user_modes w) (sent w))
    | Raised x => (Raised x, w)
    end.
Proof.
  destruct (to_key chat_id) as [k|x] eqn:Hk.
  - apply append_and_trim_run, Hk.
  - unfold append_and_trim, get_history, bind, lift. rewrite Hk. reflexivity.
Qed.

(** ** What every delivery keeps *)

Lemma bounded_insert k hist w u s :
  bounded w -> length hist <= 2 * MAX_TURNS ->
  bounded (World (<[k := hist]> (conversations w)) u s).
Proof.
  intros Hw Hh k'. unfold history. cbn [conversations].
  rewrite lookup_insert. destruct (decide (k = k')); [exact Hh|apply Hw].
Qed.

Lemma bounded_delete k w u s :
  bounded w -> bounded (World (delete k (conversations w)) u s).
Proof.
  intros Hw k'. unfold history. cbn [conversations].
  rewrite lookup_delete. destruct (decide (k = k')); [cbn; lia|apply Hw].
Qed.

Lemma modes_registered_insert k name w c s :
  modes_registered w -> in_modes name = true ->
  modes_registered (World c (<[k := name]> (user_modes w)) s).
Proof.
  intros Hw Hname k' m. cbn [user_modes]. rewrite lookup_insert.
  destruct (decide (k = k')); [intros [= <-]; exact Hname|apply Hw].
Qed.

Section Kept.

Variable ops : StrOps.
Variable e : env.

Lemma keeps_ret {A} (a : A) : keeps (ret a).
Proof. intros w Hw. exact Hw. Qed.

Lemma keeps_lift {A} (o : outcome A) : keeps (lift o).
Proof. intros w Hw. exact Hw. Qed.

Lemma keeps_bind {A B} (m : M A) (k : A -> M B) :
  keeps m -> (forall a, keeps (k a)) -> keeps (bind m k).
Proof.
  intros Hm Hk w Hw. apply wp_bind. specialize (Hm w Hw). unfold wp in *.
  destruct (m w) as [[a|x] w']; [apply Hk|]; exact Hm.
Qed.

Lemma keeps_http_post r : keeps (http_post e r).
Proof. intros w Hw. apply wp_http_post. exact Hw. Qed.

Lemma keeps_conversations_pop chat_id : keeps (conversations_pop chat_id).
Proof.
  intros w [Hb Hm]. unfold wp. rewrite conversations_pop_any.
  destruct (to_key chat_id); [|split; assumption].
  split; [apply bounded_delete, Hb|exact Hm].
Qed.

Lemma keeps_user_modes_set chat_id name :
  in_modes name = true -> keeps (user_modes_set chat_id name).
Proof.
  intros Hname w [Hb Hm]. unfold wp. rewrite user_modes_set_any.
  destruct (to_key chat_id); [|split; assumption].
  split; [exact Hb|apply modes_registered_insert; assumption].
Qed.

Lemma keeps_get_mode chat_id : keeps (get_mode chat_id).
Proof.
  intros w Hw. unfold wp. rewrite get_mode_any. destruct (to_key chat_id); exact Hw.
Qed.

Lemma keeps_get_history chat_id : keeps (get_history chat_id).
Proof.
  intros w [Hb Hm]. unfold wp. rewrite get_history_any.
  destruct (to_key chat_id) as [k|]; [|split; assumption].
  cbn [fst snd]. destruct (conversations w !! k); [split; assumption|].
  split; [apply bounded_insert; [exact Hb|cbn; lia]|exact Hm].
Qed.

Lemma keeps_append_and_trim chat_id r c : keeps (append_and_trim chat_id r c).
Proof.
  intros w [Hb Hm]. split.
  - apply append_and_trim_bounded, Hb.
  - unfold wp. rewrite append_and_trim_any. destruct (to_key chat_id); exact Hm.
Qed.

Ltac keeps_step :=
  lazymatch goal with
  | |- keeps (bind _ _) => apply keeps_bind; [|intros ?]
  | |- keeps (ret _) => apply keeps_ret
  | |- keeps (lift _) => apply keeps_lift
  | |- keeps (http_post _ _) => apply keeps_http_post
  | |- keeps (conversations_pop _) => apply keeps_conversations_pop
  | |- keeps (user_modes_set _ _) => apply keeps_user_modes_set; first [assumption|reflexivity]
  | |- keeps (get_mode _) => apply keeps_get_mode
  | |- keeps (get_history _) => apply keeps_get_history
  | |- keeps (append_and_trim _ _ _) => apply keeps_append_and_trim
  | |- keeps (if ?b then _ else _) => destruct b eqn:?
  | |- keeps (match ?x with _ => _ end) => destruct x
  end.

Lemma keeps_webhook update : keeps (webhook ops e update).
Proof.
  unfold webhook, callback_part, text_part, chat_turn,
    answer_callback_query, send_typing, send_message.
  cbv zeta. repeat keeps_step.
Qed.

End Kept.

(** X1: whatever updates are delivered, with whatever collaborators,
    from a store whose histories are within the cap and whose stored
    modes are registered, the store stays so: every history holds at
    most 20 entries, every stored mode is a registered one, and the
    mode [get_mode] gives for any chat has a prompt of its own. *)
Theorem deliveries_keep_store_sound ops w deliveries :
  bounded w ->
  modes_registered w ->
  let w' := after_deliveries ops w deliveries in
  (forall k, length (history w' k) <= 20)
  /\ (forall k m, user_modes w' !! k = Some m -> in_modes m = true)
  /\ (forall k, in_modes (default DEFAULT_MODE (user_modes w' !! k)) = true).
Proof.
  intros Hb Hm w'.
  assert (sound w') as [Hb' Hm'].
  { subst w'. assert (sound w) as Hw by (split; assumption). clear Hb Hm.
    revert w Hw. induction deliveries as [|[e update] deliveries IH]; intros w Hw; [exact Hw|].
    apply IH. exact (keeps_webhook ops e update w Hw). }
  split; [exact Hb'|]. split; [exact Hm'|].
  intros k. destruct (user_modes w' !! k) as [m|] eqn:Hk; [|reflexivity].
  exact (Hm' k m Hk).
Qed.

(** ** Messages of any content *)

Section Messages.

Variable ops : StrOps.
Variable e : env.

Lemma webhook_message update chat_id text w :
  message_of update = Some (chat_id, text) ->
  webhook ops e update w =
    (send_typing e chat_id ;;;
     match text with
     | JStr t => text_part ops e chat_id t
     | _ => send_message e chat_id "I can only read text messages for now 😊" JNull ;;; ret OK
     end) w.
Proof.
  unfold message_of, field. intros H.
  destruct update as [| | | | |kvs]; try discriminate.
  destruct (assoc "callback_query" kvs) eqn:Hcq; [discriminate|].
  destruct (assoc "message" kvs) as [message|] eqn:Hm; [|discriminate].
  cbn [mbind option_bind] in H.
  destruct (py_getitem message "chat") as [chat|] eqn:H1; [|discriminate].
  cbn [mbind option_bind] in H.
  destruct (py_getitem chat "id") as [cid|] eqn:H2; [|discriminate].
  cbn [mbind option_bind] in H.
  destruct message as [| | | | |mkvs]; try discriminate.
  destruct chat as [| | | | |ckvs]; try discriminate.
  unfold py_getitem in H1, H2.
  destruct (assoc "chat" mkvs) eqn:Hchat; [|discriminate].
  destruct (assoc "id" ckvs) eqn:Hid; [|discriminate].
  injection H1 as ->. injection H2 as ->.
  assert (truthy (JObj mkvs) = true) as Htruthy
    by (destruct mkvs; [discriminate|reflexivity]).
  assert (py_get (JObj mkvs) "text" JNull
          = Returned (default JNull
                        (match py_getitem (JObj mkvs) "text" with
                         | Returned x => Some x
                         | Raised _ => None
                         end))) as Htext
    by (unfold py_get, py_getitem; destruct (assoc "text" mkvs); reflexivity).
  unfold webhook, bind, lift, py_in. unfold py_get at 1.
  rewrite Hcq, Hm. cbn [bool_decide decide_rel ret].
  rewrite Htruthy. cbn [negb]. unfold py_get at 1 2. rewrite Hchat, Hid, Htext.
  destruct cid; try discriminate; injection H as <- <-; reflexivity.
Qed.

(** X2: a message that carries no text (a photo, a sticker) changes
    neither dictionary; once the typing indicator has gone out, the one
    reply is the fixed notice, sent without a keyboard, and with the
    transport up the update is acknowledged.  The chat id need not even
    be hashable. *)
Theorem message_without_text_gets_notice update chat_id content w :
  message_of update = Some (chat_id, content) ->
  (forall t, content <> JStr t) ->
  let notice :=
    PostJson "sendMessage"
      (JObj [("chat_id", chat_id);
             ("text", JStr "I can only read text messages for now 😊");
             ("parse_mode", JStr "Markdown")]) in
  let w' := snd (webhook ops e update w) in
  conversations w' = conversations w
  /\ user_modes w' = user_modes w
  /\ (post e (typing_request chat_id) <> NetworkError ->
      sent w' = sent w ++ [typing_request chat_id; notice]
      /\ message_keyboard notice = None
      /\ (post e notice <> NetworkError -> fst (webhook ops e update w) = Returned OK)).
Proof.
  intros Hmsg Hcontent notice w'.
  assert (webhook ops e update w =
          (http_post e (typing_request chat_id) ;;; http_post e notice ;;; ret OK) w) as Hrun.
  { rewrite (webhook_message _ _ _ _ Hmsg).
    destruct content; try reflexivity. destruct (Hcontent s eq_refl). }
  subst w'. rewrite Hrun. clear Hrun. unfold bind, http_post.
  destruct (post e (typing_request chat_id)) eqn:Htyping;
    [|cbn [fst snd conversations user_modes]; repeat split; congruence].
  destruct (post e notice) eqn:Hnotice;
    cbn [fst snd conversations user_modes sent ret]; rewrite <- app_assoc;
    repeat split; congruence.
Qed.

(** X3: the guards of the message part.  An update that is no button
    press and whose [message] is missing or empty, and one whose
    message has no [chat], or a chat with no [id] or a null one, are
    acknowledged at once: nothing changes and nothing is sent, not even
    the typing indicator. *)
Theorem update_without_addressee_ignored kvs w :
  assoc "callback_query" kvs = None ->
  (truthy (default JNull (assoc "message" kvs)) = false ->
     webhook ops e (JObj kvs) w = (Returned OK, w))
  /\ (forall mkvs ckvs,
        assoc "message" kvs = Some (JObj mkvs) ->
        default (JObj []) (assoc "chat" mkvs) = JObj ckvs ->
        default JNull (assoc "id" ckvs) = JNull ->
        webhook ops e (JObj kvs) w = (Returned OK, w)).
Proof.
  intros Hcq. split.
  - intros Hfalsy. unfold webhook, bind, lift, py_in, py_get. rewrite Hcq.
    cbn [bool_decide decide_rel ret].
    destruct (assoc "message" kvs) as [message|]; [|reflexivity].
    change (truthy message = false) in Hfalsy. rewrite Hfalsy. reflexivity.
  - intros mkvs ckvs Hm Hchat Hid.
    unfold webhook, bind, lift, py_in. unfold py_get at 1. rewrite Hcq, Hm.
    cbn [bool_decide decide_rel ret].
    destruct (truthy (JObj mkvs)); [|reflexivity]. cbn [negb].
    assert (py_get (JObj mkvs) "chat" (JObj []) = Returned (JObj ckvs)) as ->
      by (unfold py_get; destruct (assoc "chat" mkvs) as [chat|];
          [change (chat = JObj ckvs) in Hchat|change (JObj [] = JObj ckvs) in Hchat];
          congruence).
    assert (py_get (JObj ckvs) "id" JNull = Returned JNull) as ->
      by (unfold py_get; destruct (assoc "id" ckvs) as [cid|];
          [change (cid = JNull) in Hid; congruence|reflexivity]).
    unfold py_get. destruct (assoc "text" mkvs); reflexivity.
Qed.

End Messages.

(** ** Replies *)

Section Replies.

Variable ops : StrOps.
Variable e : env.

(** Whatever the text, the text part ends with one message to the
    chat, with a keyboard, and touches no other chat. *)
Lemma text_part_shape chat_id k text w :
  to_key chat_id = Returned k ->
  exists c' u' txt kb,
    text_part ops e chat_id text w =
      (match post e (message_request chat_id txt kb) with
       | Response _ => Returned OK
       | NetworkError => Raised TransportError
       end,
       World c' u' (sent w ++ [message_request chat_id txt kb]))
    /\ (forall k', k' <> k ->
          c' !! k' = conversations w !! k' /\ u' !! k' = user_modes w !! k').
Proof.
  intros Hk. unfold text_part.
  destruct (startswith "/start" (lower ops (strip ops text))).
  { exists (delete k (conversations w)), (<[k := DEFAULT_MODE]> (user_modes w)),
      welcome, main_keyboard. split.
    - unfold bind. rewrite (conversations_pop_run _ _ _ Hk), (user_modes_set_run _ _ _ _ Hk).
      rewrite send_message_run by reflexivity. unfold http_post.
      destruct (post e _); reflexivity.
    - intros k' Hne. rewrite lookup_delete_ne, lookup_insert_ne by congruence. tauto. }
  destruct (startswith "/reset" (lower ops (strip ops text))).
  { exists (delete k (conversations w)), (user_modes w),
      "Memory cleared. Fresh start! ✨", main_keyboard. split.
    - unfold bind. rewrite (conversations_pop_run _ _ _ Hk).
      rewrite send_message_run by reflexivity. unfold http_post.
      destruct (post e _); reflexivity.
    - intros k' Hne. rewrite lookup_delete_ne by congruence. tauto. }
  destruct (existsb (String.eqb (lower ops (strip ops text))) ["/mode"; "⚙️ mode"]).
  { exists (conversations w), (user_modes w), "👉 Choose a mode:",
      (mode_keyboard ops (default DEFAULT_MODE (user_modes w !! k))). split.
    - unfold bind. rewrite (get_mode_run _ _ _ Hk).
      rewrite send_message_run by reflexivity. unfold http_post.
      destruct (post e _); reflexivity.
    - tauto. }
  rewrite (chat_turn_run _ _ _ _ _ _ Hk). cbv zeta. unfold bind, http_post.
  lazymatch goal with
  | |- context [post e (message_request chat_id ?t ?kb)] => eexists _, _, t, kb
  end.
  split.
  - destruct (post e _); reflexivity.
  - intros k' Hne. cbn [conversations user_modes].
    rewrite lookup_insert_ne by congruence. tauto.
Qed.

(** One delivery of a message, as a whole. *)
Lemma message_run_shape update chat_id content k w :
  message_of update = Some (chat_id, content) ->
  to_key chat_id = Returned k ->
  exists o c' u' new,
    webhook ops e update w = (o, World c' u' (sent w ++ new))
    /\ (forall k', k' <> k ->
          c' !! k' = conversations w !! k' /\ u' !! k' = user_modes w !! k')
    /\ length new <= 2
    /\ Forall (fun r => recipient r = Some chat_id) new
    /\ ((forall r, post e r <> NetworkError) ->
        o = Returned OK
        /\ exists reply txt,
             new = [typing_request chat_id; reply]
             /\ recipient reply = Some chat_id
             /\ message_text reply = Some (JStr txt)).
Proof.
  intros Hmsg Hk. rewrite (webhook_message _ _ _ _ _ _ Hmsg).
  unfold bind at 1. unfold send_typing, http_post at 1. fold (typing_request chat_id).
  destruct (post e (typing_request chat_id)) eqn:Htyping.
  2:{ exists (Raised TransportError), (conversations w), (user_modes w),
        [typing_request chat_id].
      split; [reflexivity|]. split; [intros; split; reflexivity|].
      split; [cbn; lia|]. split; [repeat constructor|].
      intros Hup. destruct (Hup _ Htyping). }
  destruct content as [| | |text| |].
  4:{ match goal with
      | |- context [text_part ops e chat_id text ?w0] =>
          destruct (text_part_shape chat_id k text w0 Hk) as (c' & u' & txt & kb & -> & Hframe)
      end.
      cbn [conversations user_modes sent] in *.
      eexists _, c', u', [typing_request chat_id; message_request chat_id txt kb].
      rewrite <- app_assoc. split; [reflexivity|]. split; [exact Hframe|].
      split; [cbn; lia|]. split; [repeat constructor|].
      intros Hup. split.
      - destruct (post e (message_request chat_id txt kb)) eqn:Hp; [reflexivity|].
        destruct (Hup _ Hp).
      - exists (message_request chat_id txt kb), txt. repeat split; reflexivity. }
  all: unfold bind, send_message, http_post; cbn [truthy];
    match goal with
    | |- context [post e ?r] =>
        destruct (post e r) eqn:Hp;
        [ exists (Returned OK) | exists (Raised TransportError) ];
        exists (conversations w), (user_modes w), [typing_request chat_id; r];
        cbn [conversations user_modes sent ret]; rewrite <- app_assoc;
        (split; [reflexivity|]); (split; [intros; split; reflexivity|]);
        (split; [cbn; lia|]); (split; [repeat constructor|]);
        intros Hup;
        [ split; [reflexivity|]; eexists r, _; repeat split; reflexivity
        | destruct (Hup _ Hp) ]
    end.
Qed.

(** X4: a message from one chat leaves the history and the mode of
    every other chat as they were, whatever the transport and the
    completion service do; it makes at most two outbound calls, and
    each of them names the chat the message came from. *)
Theorem message_touches_only_its_chat update chat_id content k w :
  message_of update = Some (chat_id, content) ->
  to_key chat_id = Returned k ->
  let w' := snd (webhook ops e update w) in
  (forall k', k' <> k ->
     conversations w' !! k' = conversations w !! k'
     /\ user_modes w' !! k' = user_modes w !! k')
  /\ exists new,
       sent w' = sent w ++ new
       /\ length new <= 2
       /\ Forall (fun r => recipient r = Some chat_id) new.
Proof.
  intros Hmsg Hk w'. subst w'.
  destruct (message_run_shape update chat_id content k w Hmsg Hk)
    as (o & c' & u' & new & -> & Hframe & Hlen & Hto & _).
  cbn [snd conversations user_modes sent]. split; [exact Hframe|].
  exists new. repeat split; assumption.
Qed.

(** X5: with the transport up, every message from a chat is
    acknowledged with [{"ok": True}] and answered by exactly one text
    message to that chat, sent after the typing indicator; this holds
    whatever the message holds and whatever the completion service
    does. *)
Theorem message_answered_once update chat_id content k w :
  message_of update = Some (chat_id, content) ->
  to_key chat_id = Returned k ->
  (forall r, post e r <> NetworkError) ->
  fst (webhook ops e update w) = Returned OK
  /\ exists reply txt,
       sent (snd (webhook ops e update w)) = sent w ++ [typing_request chat_id; reply]
       /\ recipient reply = Some chat_id
       /\ message_text reply = Some (JStr txt).
Proof.
  intros Hmsg Hk Hup.
  destruct (message_run_shape update chat_id content k w Hmsg Hk)
    as (o & c' & u' & new & -> & _ & _ & _ & Hanswer).
  destruct (Hanswer Hup) as (-> & reply & txt & -> & Hto & Htxt).
  cbn [fst snd sent]. split; [reflexivity|]. exists reply, txt. repeat split; assumption.
Qed.

End Replies.

(** ** Button presses *)

Section Buttons.

Variable ops : StrOps.
Variable e : env.

(** X6: a button press that carries its message but no [data] (the
    platform sends such presses for game buttons) makes the handler
    raise [KeyError] on [data]; nothing has changed and nothing has
    been sent by then. *)
Theorem callback_without_data_raises update c chat_id w :
  py_getitem update "callback_query" = Returned (JObj c) ->
  (message ← field (JObj c) "message"; chat ← field message "chat"; field chat "id")
    = Some chat_id ->
  assoc "data" c = None ->
  webhook ops e update w = (Raised (KeyError "data"), w).
Proof.
  intros Hcq Hid Hdata. destruct update as [| | | | |kvs]; try discriminate.
  unfold py_getitem in Hcq.
  destruct (assoc "callback_query" kvs) as [cq|] eqn:Hkvs; [|discriminate].
  injection Hcq as ->. unfold field in Hid.
  destruct (py_getitem (JObj c) "message") as [message|] eqn:H1; [|discriminate].
  cbn [mbind option_bind] in Hid.
  destruct (py_getitem message "chat") as [chat|] eqn:H2; [|discriminate].
  cbn [mbind option_bind] in Hid.
  destruct (py_getitem chat "id") as [cid|] eqn:H3; [|discriminate].
  unfold webhook, callback_part, bind, lift. unfold py_in, py_getitem at 1.
  rewrite Hkvs. cbn [bool_decide decide_rel]. rewrite H1, H2, H3.
  unfold py_getitem. rewrite Hdata. reflexivity.
Qed.

Lemma split_head sep s :
  exists h t rest,
    split sep s = h :: t
    /\ s = h +:+ rest
    /\ (rest = "" \/ exists r, rest = String sep r)
    /\ Forall (fun c => c <> sep) (list_ascii_of_string h).
Proof.
  induction s as [|c s (h & t & rest & Hsplit & Hs & Hrest & Hh)].
  - exists "", [], "". split; [reflexivity|]. split; [reflexivity|].
    split; [left; reflexivity|constructor].
  - cbn [split]. destruct (Ascii.eqb_spec c sep) as [->|Hne].
    + exists "", (split sep s), (String sep s).
      split; [reflexivity|]. split; [reflexivity|].
      split; [right; eauto|constructor].
    + rewrite Hsplit. exists (String c h), t, rest.
      split; [reflexivity|]. split; [change (String c s = String c (h +:+ rest)); f_equal; exact Hs|].
      split; [exact Hrest|].
      cbn [list_ascii_of_string]. constructor; assumption.
Qed.

(** X7: after the test [startswith("mode:")], the subscript
    [split(":")[1]] is always there, so the handler never raises
    [IndexError]: the mode it reads is what follows [mode:] up to the
    next colon or the end of the data, and holds no colon. *)
Theorem mode_field_always_present data :
  py_startswith data "mode:" = Returned true ->
  exists d parts choice rest,
    data = JStr d
    /\ py_split data = Returned parts
    /\ py_index parts 1 = Returned choice
    /\ d = "mode:" +:+ choice +:+ rest
    /\ (rest = "" \/ exists r, rest = ":" +:+ r)
    /\ Forall (fun c => c <> ":"%char) (list_ascii_of_string choice).
Proof.
  intros H. destruct data as [| | |d| |]; try discriminate.
  assert (startswith "mode:" d = true) as Hmode
    by (unfold py_startswith in H; congruence).
  clear H. destruct (startswith_app _ _ Hmode) as [tail ->]. clear Hmode.
  destruct (split_head ":" tail) as (h & t & rest & Hsplit & -> & Hrest & Hh).
  exists ("mode:" +:+ h +:+ rest), ("mode" :: h :: t), h, rest.
  assert (split ":" ("mode:" +:+ h +:+ rest) = "mode" :: h :: t) as Hparts.
  { change (split ":" ("mode:" +:+ h +:+ rest)) with ("mode" :: split ":" (h +:+ rest)).
    rewrite Hsplit. reflexivity. }
  split; [reflexivity|]. split; [cbn [py_split]; rewrite Hparts; reflexivity|].
  split; [reflexivity|]. split; [reflexivity|]. split; assumption.
Qed.

(** What a valid mode button leaves in the two dictionaries, whatever
    the transport does with the two replies. *)
Lemma mode_switch_state update chat_id k cq_id name w :
  callback_query_of update = Some (chat_id, cq_id, "mode:" +:+ name) ->
  in_modes name = true ->
  to_key chat_id = Returned k ->
  exists o s,
    webhook ops e update w =
      (o, World (delete k (conversations w)) (<[k := name]> (user_modes w)) s).
Proof.
  intros Hcq Hname Hk.
  rewrite (webhook_callback_query _ _ _ _ _ _ _ Hcq) by reflexivity.
  rewrite (registered_mode_field _ Hname), Hname.
  unfold bind.
  rewrite (user_modes_set_run _ _ _ _ Hk), (conversations_pop_run _ _ _ Hk).
  unfold answer_callback_query, send_message.
  match goal with
  | |- context [http_post e ?r ?w0] =>
      destruct (http_post_cases e r w0) as [[[]|x] ->]
  end; [|eexists _, _; reflexivity].
  match goal with
  | |- context [http_post e ?r ?w0] =>
      destruct (http_post_cases e r w0) as [[[]|x] ->]
  end; eexists _, _; reflexivity.
Qed.

(** X8: the mode-selection keyboard and the button-press part agree.
    The keyboard has one button per registered mode, whose data is
    [mode:<name>]; and a press that carries the data of any button of a
    keyboard the bot has rendered switches its chat to the mode of that
    button and clears its history. *)
Theorem rendered_buttons_select_their_mode active update chat_id k cq_id data w :
  In (JStr data) (button_data (mode_buttons ops active)) ->
  callback_query_of update = Some (chat_id, cq_id, data) ->
  to_key chat_id = Returned k ->
  button_data (mode_buttons ops active)
    = map (fun name => JStr ("mode:" +:+ name)) (map fst modes)
  /\ exists name,
       data = "mode:" +:+ name
       /\ in_modes name = true
       /\ user_modes (snd (webhook ops e update w)) !! k = Some name
       /\ conversations (snd (webhook ops e update w)) !! k = None.
Proof.
  intros Hin Hcq Hk. split; [reflexivity|].
  assert (exists name, data = "mode:" +:+ name /\ in_modes name = true) as (name & -> & Hname).
  { cbn in Hin. destruct Hin as [H|[H|[H|[H|[]]]]]; injection H as <-;
      eexists; split; reflexivity. }
  exists name. split; [reflexivity|]. split; [exact Hname|].
  destruct (mode_switch_state update chat_id k cq_id name w Hcq Hname Hk) as (o & s & ->).
  cbn [snd user_modes conversations].
  rewrite lookup_insert_eq, lookup_delete_eq. split; reflexivity.
Qed.

End Buttons.

(** ** Turns and commands, one delivery after another *)

Section Turns.

Variable ops : StrOps.

Lemma webhook_start_run e update chat_id k text w :
  text_message_of update = Some (chat_id, text) ->
  to_key chat_id = Returned k ->
  post e (typing_request chat_id) <> NetworkError ->
  startswith "/start" (lower ops (strip ops text)) = true ->
  exists o,
    webhook ops e update w =
      (o, World (delete k (conversations w)) (<[k := DEFAULT_MODE]> (user_modes w))
            (sent w ++ [typing_request chat_id;
                        message_request chat_id welcome main_keyboard])).
Proof.
  intros Hmsg Hk Htyping Hstart. rewrite (webhook_text_message _ _ _ _ _ _ Hmsg).
  unfold bind at 1. rewrite (typing_up _ _ _ Htyping).
  unfold text_part. rewrite Hstart. unfold bind.
  rewrite (conversations_pop_run _ _ _ Hk), (user_modes_set_run _ _ _ _ Hk).
  rewrite send_message_run by reflexivity.
  match goal with
  | |- context [http_post e ?r ?w0] =>
      destruct (http_post_cases e r w0) as [[[]|x] ->]
  end; eexists; unfold with_sent, ret; cbn [conversations user_modes sent];
    rewrite <- app_assoc; reflexivity.
Qed.

Lemma webhook_mode_run e update chat_id k text w :
  text_message_of update = Some (chat_id, text) ->
  to_key chat_id = Returned k ->
  post e (typing_request chat_id) <> NetworkError ->
  lower ops (strip ops text) = "/mode" \/ lower ops (strip ops text) = "⚙️ mode" ->
  exists o,
    webhook ops e update w =
      (o, World (conversations w) (user_modes w)
            (sent w ++ [typing_request chat_id;
                        message_request chat_id "👉 Choose a mode:"
                          (mode_keyboard ops (default DEFAULT_MODE (user_modes w !! k)))])).
Proof.
  intros Hmsg Hk Htyping Hmode. rewrite (webhook_text_message _ _ _ _ _ _ Hmsg).
  unfold bind at 1. rewrite (typing_up _ _ _ Htyping).
  unfold text_part. destruct (mode_is_not_prefixed _ Hmode) as [-> ->].
  replace (existsb _ _) with true by (destruct Hmode as [-> | ->]; reflexivity).
  unfold bind. rewrite (get_mode_run _ _ _ Hk).
  rewrite send_message_run by reflexivity.
  match goal with
  | |- context [http_post e ?r ?w0] =>
      destruct (http_post_cases e r w0) as [[[]|x] ->]
  end; eexists; unfold with_sent, ret; cbn [conversations user_modes sent];
    rewrite <- app_assoc; reflexivity.
Qed.

Lemma webhook_turn_run e update chat_id k text w :
  text_message_of update = Some (chat_id, text) ->
  to_key chat_id = Returned k ->
  post e (typing_request chat_id) <> NetworkError ->
  startswith "/start" (lower ops (strip ops text)) = false ->
  startswith "/reset" (lower ops (strip ops text)) = false ->
  lower ops (strip ops text) <> "/mode" ->
  lower ops (strip ops text) <> "⚙️ mode" ->
  let mode := default DEFAULT_MODE (user_modes w !! k) in
  let h1 := slice_last 20 (history w k ++ [Entry "user" text]) in
  let reply := completion_reply e (turn_messages mode h1) in
  exists o,
    webhook ops e update w =
      (o, World (<[k := slice_last 20 (h1 ++ [Entry "assistant" reply])]> (conversations w))
            (user_modes w)
            (sent w ++ [typing_request chat_id;
                        message_request chat_id (labelled_reply ops mode reply)
                          main_keyboard])).
Proof.
  intros Hmsg Hk Htyping Hstart Hreset Hm1 Hm2 mode h1 reply.
  rewrite (webhook_text_message _ _ _ _ _ _ Hmsg).
  unfold bind at 1. rewrite (typing_up _ _ _ Htyping).
  unfold text_part. rewrite Hstart, Hreset. cbn [existsb].
  apply String.eqb_neq in Hm1, Hm2. rewrite Hm1, Hm2. cbn [orb].
  rewrite (chat_turn_run _ _ _ _ _ _ Hk).
  change (history (with_sent w (typing_request chat_id)) k) with (history w k).
  cbn [with_sent conversations user_modes sent]. fold h1. fold mode. fold reply.
  unfold bind.
  match goal with
  | |- context [http_post e ?r ?w0] =>
      destruct (http_post_cases e r w0) as [[[]|x] ->]
  end; eexists; unfold with_sent, ret; cbn [conversations user_modes sent];
    rewrite <- app_assoc; reflexivity.
Qed.

Lemma webhook_turn_any e update chat_id k text w :
  text_message_of update = Some (chat_id, text) ->
  to_key chat_id = Returned k ->
  startswith "/start" (lower ops (strip ops text)) = false ->
  startswith "/reset" (lower ops (strip ops text)) = false ->
  lower ops (strip ops text) <> "/mode" ->
  lower ops (strip ops text) <> "⚙️ mode" ->
  let mode := default DEFAULT_MODE (user_modes w !! k) in
  let h1 := slice_last 20 (history w k ++ [Entry "user" text]) in
  let reply := completion_reply e (turn_messages mode h1) in
  webhook ops e update w =
    match post e (typing_request chat_id) with
    | Response _ =>
        (http_post e (message_request chat_id (labelled_reply ops mode reply) main_keyboard) ;;;
         ret OK)
          (World (<[k := slice_last 20 (h1 ++ [Entry "assistant" reply])]> (conversations w))
                 (user_modes w) (sent w ++ [typing_request chat_id]))
    | NetworkError => (Raised TransportError, with_sent w (typing_request chat_id))
    end.
Proof.
  intros Hmsg Hk Hstart Hreset Hm1 Hm2 mode h1 reply.
  rewrite (webhook_text_message _ _ _ _ _ _ Hmsg).
  unfold bind at 1. unfold send_typing, http_post at 1. fold (typing_request chat_id).
  destruct (post e (typing_request chat_id)); [|reflexivity].
  unfold text_part. rewrite Hstart, Hreset. cbn [existsb].
  apply String.eqb_neq in Hm1, Hm2. rewrite Hm1, Hm2. cbn [orb].
  rewrite (chat_turn_run _ _ _ _ _ _ Hk). reflexivity.
Qed.

(** X9: a conversational turn leaves, at the end of the chat's
    history, the user's text followed by the assistant's reply, after at
    most the 18 latest entries of what was there; the reply is never
    empty: it is the completion's text, or [...] when the completion
    holds none or an empty one, or the apology when the call failed. *)
Theorem turn_appends_user_then_assistant e update chat_id k text w :
  text_message_of update = Some (chat_id, text) ->
  to_key chat_id = Returned k ->
  post e (typing_request chat_id) <> NetworkError ->
  let t := lower ops (strip ops text) in
  startswith "/start" t = false ->
  startswith "/reset" t = false ->
  t <> "/mode" ->
  t <> "⚙️ mode" ->
  exists reply,
    history (snd (webhook ops e update w)) k
      = slice_last 18 (history w k) ++ [Entry "user" text; Entry "assistant" reply]
    /\ reply <> ""
    /\ match create_completion e
               (turn_messages (default DEFAULT_MODE (user_modes w !! k))
                  (slice_last 20 (history w k ++ [Entry "user" text]))) with
       | Completion (Some s) => reply = if String.eqb s "" then "..." else s
       | Completion None => reply = "..."
       | CompletionError _ => reply = "Sorry, I ran into an issue."
       end.
Proof.
  intros Hmsg Hk Htyping t Hstart Hreset Hm1 Hm2.
  destruct (webhook_turn_run e update chat_id k text w Hmsg Hk Htyping Hstart Hreset Hm1 Hm2)
    as [o ->].
  eexists. split; [|split].
  - unfold history at 1. cbn [snd conversations]. rewrite lookup_insert_eq. cbn [default].
    rewrite slice_last_app_slice, <- app_assoc. cbn [app].
    rewrite slice_last_app by (cbn; lia). reflexivity.
  - unfold completion_reply. destruct (create_completion e _) as [[s|]|err]; try discriminate.
    destruct (String.eqb_spec s ""); [discriminate|assumption].
  - unfold completion_reply. destruct (create_completion e _) as [[s|]|err]; reflexivity.
Qed.

(** X10: the context of a turn.  The message list given to the
    completion service opens with the system prompt, closes with the
    user's new text and holds at most 21 messages; and the delivery
    depends on the completion service through its answer to that list
    alone. *)
Theorem turn_context e update chat_id k text w :
  text_message_of update = Some (chat_id, text) ->
  to_key chat_id = Returned k ->
  let t := lower ops (strip ops text) in
  startswith "/start" t = false ->
  startswith "/reset" t = false ->
  t <> "/mode" ->
  t <> "⚙️ mode" ->
  let mode := default DEFAULT_MODE (user_modes w !! k) in
  let messages := turn_messages mode (slice_last 20 (history w k ++ [Entry "user" text])) in
  length messages <= 21
  /\ role <$> head messages = Some "system"
  /\ last messages = Some (Entry "user" text)
  /\ forall e',
       (forall r, post e' r = post e r) ->
       create_completion e' messages = create_completion e messages ->
       webhook ops e' update w = webhook ops e update w.
Proof.
  intros Hmsg Hk t Hstart Hreset Hm1 Hm2 mode messages. subst messages.
  split; [|split; [|split]].
  - unfold turn_messages. cbn [length]. rewrite slice_last_length. lia.
  - reflexivity.
  - unfold turn_messages. rewrite slice_last_app by (cbn; lia).
    rewrite app_comm_cons. apply last_snoc.
  - intros e' Hpost Hcomp.
    rewrite (webhook_turn_any e' update chat_id k text w Hmsg Hk Hstart Hreset Hm1 Hm2).
    rewrite (webhook_turn_any e update chat_id k text w Hmsg Hk Hstart Hreset Hm1 Hm2).
    cbv zeta. fold mode. unfold completion_reply. rewrite Hcomp, Hpost.
    unfold bind, http_post. rewrite Hpost. reflexivity.
Qed.

End Turns.

(** ** Deliveries in sequence *)

Section Sequences.

Variable ops : StrOps.

(** X11: a chat that is switched to a mode by a button and then asks
    for the modes gets the keyboard with the checkmark on the mode it
    was switched to, and its history is still empty; the first delivery
    may have met any transport failure after the switch. *)
Theorem mode_keyboard_marks_switched_mode e1 e2 u1 u2 chat_id k cq_id name text w :
  callback_query_of u1 = Some (chat_id, cq_id, "mode:" +:+ name) ->
  in_modes name = true ->
  to_key chat_id = Returned k ->
  text_message_of u2 = Some (chat_id, text) ->
  lower ops (strip ops text) = "/mode" \/ lower ops (strip ops text) = "⚙️ mode" ->
  post e2 (typing_request chat_id) <> NetworkError ->
  let w1 := snd (webhook ops e1 u1 w) in
  let w2 := snd (webhook ops e2 u2 w1) in
  sent w2 = sent w1 ++
    [typing_request chat_id;
     message_request chat_id "👉 Choose a mode:" (mode_keyboard ops name)]
  /\ history w2 k = []
  /\ user_modes w2 !! k = Some name.
Proof.
  intros Hcq Hname Hk Hmsg Hmode Htyping w1 w2. subst w2 w1.
  destruct (mode_switch_state ops e1 u1 chat_id k cq_id name w Hcq Hname Hk) as (o1 & s1 & ->).
  cbn [snd].
  destruct (webhook_mode_run ops e2 u2 chat_id k text
              (World (delete k (conversations w)) (<[k := name]> (user_modes w)) s1)
              Hmsg Hk Htyping Hmode) as (o2 & ->).
  unfold history. cbn [snd conversations user_modes sent].
  rewrite lookup_insert_eq, lookup_delete_eq. repeat split; reflexivity.
Qed.

(** X12: the first turn after [/start].  Whatever the chat's history
    and mode were, the text that follows a [/start] is sent to the
    completion service behind the prompt of the default mode and
    nothing else, the reply goes out under the label of that mode, and
    the history is then that one exchange. *)
Theorem first_turn_after_start e1 e2 u1 u2 chat_id k t1 t2 w :
  to_key chat_id = Returned k ->
  text_message_of u1 = Some (chat_id, t1) ->
  startswith "/start" (lower ops (strip ops t1)) = true ->
  post e1 (typing_request chat_id) <> NetworkError ->
  text_message_of u2 = Some (chat_id, t2) ->
  startswith "/start" (lower ops (strip ops t2)) = false ->
  startswith "/reset" (lower ops (strip ops t2)) = false ->
  lower ops (strip ops t2) <> "/mode" ->
  lower ops (strip ops t2) <> "⚙️ mode" ->
  post e2 (typing_request chat_id) <> NetworkError ->
  let w1 := snd (webhook ops e1 u1 w) in
  let w2 := snd (webhook ops e2 u2 w1) in
  let reply :=
    completion_reply e2
      [Entry "system" "You are a helpful, concise assistant for everyday questions.";
       Entry "user" t2] in
  history w2 k = [Entry "user" t2; Entry "assistant" reply]
  /\ user_modes w2 !! k = Some "general"
  /\ sent w2 = sent w1 ++
       [typing_request chat_id;
        message_request chat_id (labelled_reply ops "general" reply) main_keyboard].
Proof.
  intros Hk Hm1 Hstart Ht1 Hm2 Hs2 Hr2 Hx2 Hy2 Ht2 w1 w2 reply. subst w2 w1.
  destruct (webhook_start_run ops e1 u1 chat_id k t1 w Hk Hm1 Ht1 Hstart) as (o1 & ->)
    || destruct (webhook_start_run ops e1 u1 chat_id k t1 w Hm1 Hk Ht1 Hstart) as (o1 & ->).
  cbn [snd].
  match goal with
  | |- context [webhook ops e2 u2 ?w1] =>
      destruct (webhook_turn_run ops e2 u2 chat_id k t2 w1 Hm2 Hk Ht2 Hs2 Hr2 Hx2 Hy2)
        as (o2 & ->)
  end.
  unfold history. cbn [snd conversations user_modes sent].
  rewrite !lookup_insert_eq, !lookup_delete_eq. repeat split; reflexivity.
Qed.

End Sequences.

(** ** The getters and the store *)

(** X13: [get_history] returns the stored history and, for a chat
    that has none, stores an empty one; every chat's history reads as
    before, and modes and outbound calls are untouched.  [get_mode]
    returns the stored mode, or [general] for a chat that has none, and
    stores nothing. *)
Theorem getters_create_history_only chat_id k w :
  to_key chat_id = Returned k ->
  let r := get_history chat_id w in
  fst r = Returned (history w k)
  /\ conversations (snd r) !! k = Some (history w k)
  /\ (forall k', history (snd r) k' = history w k')
  /\ (forall k', k' <> k -> conversations (snd r) !! k' = conversations w !! k')
  /\ user_modes (snd r) = user_modes w
  /\ sent (snd r) = sent w
  /\ get_mode chat_id w = (Returned (default "general" (user_modes w !! k)), w).
Proof.
  intros Hk r. subst r. rewrite get_history_any, get_mode_any, Hk.
  unfold history. cbn [fst snd].
  destruct (conversations w !! k) as [hist|] eqn:Hh; cbn [conversations user_modes sent].
  - rewrite Hh. repeat split; reflexivity.
  - rewrite lookup_insert_eq. repeat split; try reflexivity.
    + intros k'. rewrite lookup_insert. destruct (decide (k = k')) as [<-|]; [|reflexivity].
      rewrite Hh. reflexivity.
    + intros k' Hne. apply lookup_insert_ne. congruence.
Qed.

(** X14: a run of [append_and_trim] calls for one chat leaves every
    other chat's history, every mode and the outbound calls as they
    were; when the chat's history was within the cap, what is stored
    after the run is the last 20 entries of the old history followed by
    the run. *)
Theorem appends_touch_one_chat chat_id k entries w :
  to_key chat_id = Returned k ->
  let w' := after_appends w (appends_for chat_id entries) in
  (length (history w k) <= 20 ->
     history w' k = slice_last 20 (history w k ++ entries))
  /\ (forall k', k' <> k -> conversations w' !! k' = conversations w !! k')
  /\ user_modes w' = user_modes w
  /\ sent w' = sent w.
Proof.
  intros Hk w'. subst w'. split; [apply after_appends_for, Hk|].
  revert w. induction entries as [|x entries IH]; intros w.
  - repeat split; reflexivity.
  - cbn [appends_for map after_appends fold_left fst snd].
    change (fold_left _ (map _ entries) ?w0)
      with (after_appends w0 (appends_for chat_id entries)).
    destruct (IH (snd (append_and_trim chat_id (role x) (content x) w))) as (Hc & Hu & Hs).
    split; [|split].
    + intros k' Hne. rewrite (Hc k' Hne), (append_and_trim_run _ _ _ _ _ Hk).
      cbn [snd conversations]. apply lookup_insert_ne. congruence.
    + rewrite Hu, (append_and_trim_run _ _ _ _ _ Hk). reflexivity.
    + rewrite Hs, (append_and_trim_run _ _ _ _ _ Hk). reflexivity.
Qed.

(** ** Process start *)

(** X15: the module starts exactly when a bot token and the
    completion key are set and not empty.  [BOT_TOKEN] is the token when
    it is set and not empty, [TELEGRAM_BOT_TOKEN] otherwise; the base
    URL of the platform API ends with the token; and when both secrets
    are missing the error names the token. *)
Theorem startup_needs_both_secrets environ :
  let bot := getenv environ "BOT_TOKEN" in
  let telegram := getenv environ "TELEGRAM_BOT_TOKEN" in
  let openai := getenv environ "OPENAI_API_KEY" in
  ((exists t key api, load_config environ = Started t key api)
   <-> (str_truthy bot || str_truthy telegram) && str_truthy openai = true)
  /\ (forall t key api,
        load_config environ = Started t key api ->
        Some t = (if str_truthy bot then bot else telegram)
        /\ Some key = openai
        /\ api = "https://api.telegram.org/bot" +:+ t)
  /\ (str_truthy bot || str_truthy telegram = false ->
      load_config environ =
        RuntimeError "Telegram bot token missing. Set BOT_TOKEN or TELEGRAM_BOT_TOKEN in your .env").
Proof.
  intros bot telegram openai.
  assert (forall v, str_truthy v = true -> Some (default "" v) = v) as Hsome
    by (intros [x|]; [reflexivity|discriminate]).
  unfold load_config, str_or. fold bot. fold telegram. fold openai.
  destruct (str_truthy bot) eqn:Hb; cbn [orb andb].
  - rewrite Hb. cbn [negb]. destruct (str_truthy openai) eqn:Ho; cbn [negb].
    + split; [split; [reflexivity|intros _; eexists _, _, _; reflexivity]|].
      split; [|discriminate].
      intros t key api [= <- <- <-]. rewrite !Hsome by assumption. repeat split.
    + split; [split; [intros (? & ? & ? & [=])|discriminate]|].
      split; [intros ? ? ? [=]|discriminate].
  - destruct (str_truthy telegram) eqn:Ht; cbn [negb].
    + destruct (str_truthy openai) eqn:Ho; cbn [negb].
      * split; [split; [reflexivity|intros _; eexists _, _, _; reflexivity]|].
        split; [|discriminate].
        intros t key api [= <- <- <-]. rewrite !Hsome by assumption. repeat split.
      * split; [split; [intros (? & ? & ? & [=])|discriminate]|].
        split; [intros ? ? ? [=]|discriminate].
    + split; [split; [intros (? & ? & ? & [=])|discriminate]|].
      split; [intros ? ? ? [=]|reflexivity].
Qed.

(** ** Any update at all *)

Lemma wp_conversations_pop chat_id Q w :
  match to_key chat_id with
  | Returned k => Q (Returned tt) (World (delete k (conversations w)) (user_modes w) (sent w))
  | Raised x => Q (Raised x) w
  end ->
  wp (conversations_pop chat_id) Q w.
Proof. unfold wp. rewrite conversations_pop_any. destruct (to_key chat_id); exact (fun H => H). Qed.

Lemma wp_user_modes_set chat_id name Q w :
  match to_key chat_id with
  | Returned k =>
      Q (Returned tt) (World (conversations w) (<[k := name]> (user_modes w)) (sent w))
  | Raised x => Q (Raised x) w
  end ->
  wp (user_modes_set chat_id name) Q w.
Proof. unfold wp. rewrite user_modes_set_any. destruct (to_key chat_id); exact (fun H => H). Qed.

Lemma wp_get_mode chat_id Q w :
  match to_key chat_id with
  | Returned k => Q (Returned (default DEFAULT_MODE (user_modes w !! k))) w
  | Raised x => Q (Raised x) w
  end ->
  wp (get_mode chat_id) Q w.
Proof. unfold wp. rewrite get_mode_any. destruct (to_key chat_id); exact (fun H => H). Qed.

Lemma wp_get_history chat_id Q w :
  match to_key chat_id with
  | Returned k =>
      forall c, Q (Returned (history w k)) (World c (user_modes w) (sent w))
  | Raised x => Q (Raised x) w
  end ->
  wp (get_history chat_id) Q w.
Proof.
  unfold wp. rewrite get_history_any. destruct (to_key chat_id) as [k|]; [|exact (fun H => H)].
  intros H. cbn [fst snd]. destruct (conversations w !! k); [|apply H].
  destruct w as [c u s]. apply H.
Qed.

Lemma wp_append_and_trim chat_id r c Q w :
  match to_key chat_id with
  | Returned k => forall c', Q (Returned tt) (World c' (user_modes w) (sent w))
  | Raised x => Q (Raised x) w
  end ->
  wp (append_and_trim chat_id r c) Q w.
Proof.
  unfold wp. rewrite append_and_trim_any. destruct (to_key chat_id); [|exact (fun H => H)].
  intros H. apply H.
Qed.

Ltac walk :=
  cbv beta iota;
  lazymatch goal with
  | |- wp (bind _ _) _ _ => apply wp_bind
  | |- wp (ret _) _ _ => apply wp_ret
  | |- wp (lift ?o) _ _ => apply wp_lift; destruct o
  | |- wp (http_post _ ?r) _ _ => apply wp_http_post; destruct (post _ r)
  | |- wp (conversations_pop ?c) _ _ => apply wp_conversations_pop; destruct (to_key c)
  | |- wp (user_modes_set ?c _) _ _ => apply wp_user_modes_set; destruct (to_key c)
  | |- wp (get_mode ?c) _ _ => apply wp_get_mode; destruct (to_key c)
  | |- wp (get_history ?c) _ _ => apply wp_get_history; destruct (to_key c); [intros ?|]
  | |- wp (append_and_trim ?c _ _) _ _ =>
      apply wp_append_and_trim; destruct (to_key c); [intros ?|]
  | |- wp (if ?b then _ else _) _ _ => destruct b
  | |- wp (match ?x with _ => _ end) _ _ => destruct x
  end.

(** X16: whatever the update is, a delivery makes at most two calls
    to the chat platform, after the calls made before it; and when the
    handler returns, what it returns is [{"ok": True}]. *)
Theorem delivery_makes_at_most_two_calls ops e update w :
  (forall v, fst (webhook ops e update w) = Returned v -> v = OK)
  /\ exists new,
       sent (snd (webhook ops e update w)) = sent w ++ new
       /\ length new <= 2.
Proof.
  change (wp (webhook ops e update)
            (fun o w' => (forall v, o = Returned v -> v = OK)
                         /\ exists new, sent w' = sent w ++ new /\ length new <= 2) w).
  unfold webhook, callback_part, text_part, chat_turn,
    answer_callback_query, send_typing, send_message.
  cbv zeta. repeat walk.
  all: cbv beta iota; unfold with_sent; cbn [sent conversations user_modes].
  all: split; [intros v Hv; try discriminate Hv; injection Hv as <-; reflexivity|].
  all: rewrite <- ?app_assoc;
    first [ exists []; split; [symmetry; apply app_nil_r|cbn; lia]
          | eexists; split; [reflexivity|cbn; lia] ].
Qed.

(** ** The further properties on concrete deliveries *)

Lemma initial_world_registered : modes_registered initial_world.
Proof. intros k m H. cbn [initial_world user_modes] in H. rewrite lookup_empty in H. discriminate. Qed.

Lemma two_chats_key : to_key (JNum 5) = Returned (KInt 5).
Proof. reflexivity. Qed.

Lemma deliveries_keep_store_sound_witness :
  let w' := after_deliveries ascii_ops initial_world sample_deliveries in
  (forall k, length (history w' k) <= 20)
  /\ (forall k m, user_modes w' !! k = Some m -> in_modes m = true)
  /\ (forall k, in_modes (default DEFAULT_MODE (user_modes w' !! k)) = true).
Proof.
  exact (deliveries_keep_store_sound ascii_ops initial_world sample_deliveries
           initial_world_bounded initial_world_registered).
Defined.

Lemma message_without_text_gets_notice_witness :
  let w' := snd (webhook ascii_ops env_up (photo_update 5) two_chats) in
  conversations w' = conversations two_chats /\ user_modes w' = user_modes two_chats.
Proof.
  destruct (message_without_text_gets_notice ascii_ops env_up (photo_update 5)
              (JNum 5) JNull two_chats eq_refl) as (Hc & Hu & _).
  - intros t. discriminate.
  - split; [exact Hc|exact Hu].
Defined.

Lemma update_without_addressee_ignored_witness :
  webhook ascii_ops env_up
    (JObj [("update_id", JNum 6);
           ("message", JObj [("message_id", JNum 1); ("text", JStr "hi")])]) two_chats
  = (Returned OK, two_chats).
Proof.
  apply (proj2 (update_without_addressee_ignored ascii_ops env_up
                  [("update_id", JNum 6);
                   ("message", JObj [("message_id", JNum 1); ("text", JStr "hi")])]
                  two_chats eq_refl)
           [("message_id", JNum 1); ("text", JStr "hi")] []); reflexivity.
Defined.

Lemma message_touches_only_its_chat_witness :
  let w' := snd (webhook ascii_ops env_completion_down (text_update 5 "hello") two_chats) in
  (forall k', k' <> KInt 5 ->
     conversations w' !! k' = conversations two_chats !! k'
     /\ user_modes w' !! k' = user_modes two_chats !! k')
  /\ exists new,
       sent w' = sent two_chats ++ new
       /\ length new <= 2
       /\ Forall (fun r => recipient r = Some (JNum 5)) new.
Proof.
  exact (message_touches_only_its_chat ascii_ops env_completion_down
           (text_update 5 "hello") (JNum 5) (JStr "hello") (KInt 5) two_chats
           eq_refl eq_refl).
Defined.

Lemma message_answered_once_witness :
  fst (webhook ascii_ops env_up (text_update 5 "/mode") two_chats) = Returned OK
  /\ exists reply txt,
       sent (snd (webhook ascii_ops env_up (text_update 5 "/mode") two_chats))
         = sent two_chats ++ [typing_request (JNum 5); reply]
       /\ recipient reply = Some (JNum 5)
       /\ message_text reply = Some (JStr txt).
Proof.
  exact (message_answered_once ascii_ops env_up (text_update 5 "/mode")
           (JNum 5) (JStr "/mode") (KInt 5) two_chats eq_refl eq_refl env_up_never_raises).
Defined.

Lemma callback_without_data_raises_witness :
  webhook ascii_ops env_up (game_button_update 5) two_chats
  = (Raised (KeyError "data"), two_chats).
Proof.
  apply (callback_without_data_raises ascii_ops env_up (game_button_update 5)
           [("id", JStr "q2");
            ("message", JObj [("message_id", JNum 8); ("chat", JObj [("id", JNum 5)])]);
            ("game_short_name", JStr "snake")] (JNum 5) two_chats); reflexivity.
Defined.

Lemma mode_field_always_present_witness :
  exists d parts choice rest,
    JStr "mode:fitness:x" = JStr d
    /\ py_split (JStr "mode:fitness:x") = Returned parts
    /\ py_index parts 1 = Returned choice
    /\ d = "mode:" +:+ choice +:+ rest
    /\ (rest = "" \/ exists r, rest = ":" +:+ r)
    /\ Forall (fun c => c <> ":"%char) (list_ascii_of_string choice).
Proof. exact (mode_field_always_present (JStr "mode:fitness:x") eq_refl). Defined.

Lemma rendered_buttons_select_their_mode_witness :
  exists name,
    "mode:realestate" = "mode:" +:+ name
    /\ in_modes name = true
    /\ user_modes (snd (webhook ascii_ops env_up (button_update 5 "mode:realestate") two_chats))
         !! KInt 5 = Some name
    /\ conversations (snd (webhook ascii_ops env_up (button_update 5 "mode:realestate") two_chats))
         !! KInt 5 = None.
Proof.
  apply (proj2 (rendered_buttons_select_their_mode ascii_ops env_up "restaurant"
                  (button_update 5 "mode:realestate") (JNum 5) (KInt 5) (JStr "q1")
                  "mode:realestate" two_chats
                  (or_intror (or_intror (or_intror (or_introl eq_refl))))
                  eq_refl eq_refl)).
Defined.

Lemma turn_appends_user_then_assistant_witness :
  exists reply,
    history (snd (webhook ascii_ops env_up (text_update 5 "Any plans?") two_chats)) (KInt 5)
      = slice_last 18 (history two_chats (KInt 5))
        ++ [Entry "user" "Any plans?"; Entry "assistant" reply]
    /\ reply <> ""
    /\ reply = "Hello!".
Proof.
  apply (turn_appends_user_then_assistant ascii_ops env_up (text_update 5 "Any plans?")
           (JNum 5) (KInt 5) "Any plans?" two_chats);
    try reflexivity; discriminate.
Defined.

Lemma turn_context_witness :
  let messages :=
    turn_messages "restaurant"
      (slice_last 20 (history two_chats (KInt 5) ++ [Entry "user" "Any plans?"])) in
  length messages <= 21
  /\ role <$> head messages = Some "system"
  /\ last messages = Some (Entry "user" "Any plans?")
  /\ forall e',
       (forall r, post e' r = post env_up r) ->
       create_completion e' messages = create_completion env_up messages ->
       webhook ascii_ops e' (text_update 5 "Any plans?") two_chats
       = webhook ascii_ops env_up (text_update 5 "Any plans?") two_chats.
Proof.
  apply (turn_context ascii_ops env_up (text_update 5 "Any plans?")
           (JNum 5) (KInt 5) "Any plans?" two_chats);
    try reflexivity; discriminate.
Defined.

Lemma mode_keyboard_marks_switched_mode_witness :
  let w1 := snd (webhook ascii_ops env_typing_down (button_update 5 "mode:fitness") two_chats) in
  let w2 := snd (webhook ascii_ops env_up (text_update 5 "/Mode ") w1) in
  sent w2 = sent w1 ++
    [typing_request (JNum 5);
     message_request (JNum 5) "👉 Choose a mode:" (mode_keyboard ascii_ops "fitness")]
  /\ history w2 (KInt 5) = []
  /\ user_modes w2 !! KInt 5 = Some "fitness".
Proof.
  apply (mode_keyboard_marks_switched_mode ascii_ops env_typing_down env_up
           (button_update 5 "mode:fitness") (text_update 5 "/Mode ")
           (JNum 5) (KInt 5) (JStr "q1") "fitness" "/Mode " two_chats);
    try reflexivity; [left; reflexivity|discriminate].
Defined.

Lemma first_turn_after_start_witness :
  let w1 := snd (webhook ascii_ops env_up (text_update 5 "/start") two_chats) in
  let w2 := snd (webhook ascii_ops env_up (text_update 5 "Any plans?") w1) in
  history w2 (KInt 5) = [Entry "user" "Any plans?"; Entry "assistant" "Hello!"]
  /\ user_modes w2 !! KInt 5 = Some "general"
  /\ sent w2 = sent w1 ++
       [typing_request (JNum 5);
        message_request (JNum 5) (labelled_reply ascii_ops "general" "Hello!") main_keyboard].
Proof.
  apply (first_turn_after_start ascii_ops env_up env_up
           (text_update 5 "/start") (text_update 5 "Any plans?")
           (JNum 5) (KInt 5) "/start" "Any plans?" two_chats);
    try reflexivity; discriminate.
Defined.

Lemma getters_create_history_only_witness :
  fst (get_history (JNum 7) two_chats) = Returned []
  /\ conversations (snd (get_history (JNum 7) two_chats)) !! KInt 7 = Some []
  /\ get_mode (JNum 7) two_chats = (Returned "general", two_chats).
Proof.
  destruct (getters_create_history_only (JNum 7) (KInt 7) two_chats eq_refl)
    as (Hr & Hc & _ & _ & _ & _ & Hm).
  split; [exact Hr|]. split; [exact Hc|exact Hm].
Defined.

Lemma appends_touch_one_chat_witness :
  let w' := after_appends two_chats
              (appends_for (JNum 6) [Entry "assistant" "Soup."; Entry "user" "thanks"]) in
  history w' (KInt 6) = [Entry "user" "menu?"; Entry "assistant" "Soup."; Entry "user" "thanks"]
  /\ conversations w' !! KInt 5 = conversations two_chats !! KInt 5
  /\ user_modes w' = user_modes two_chats.
Proof.
  destruct (appends_touch_one_chat (JNum 6) (KInt 6)
              [Entry "assistant" "Soup."; Entry "user" "thanks"] two_chats eq_refl)
    as (Hh & Hc & Hu & _).
  split; [|split; [|exact Hu]].
  - apply Hh. vm_compute. lia.
  - apply Hc. discriminate.
Defined.

Lemma startup_needs_both_secrets_witness :
  load_config sample_environ
  = Started "123:abc" "sk-test" "https://api.telegram.org/bot123:abc".
Proof.
  destruct (proj2 (proj1 (startup_needs_both_secrets sample_environ)) eq_refl)
    as (t & key & api & Hstart).
  destruct (proj1 (proj2 (startup_needs_both_secrets sample_environ)) t key api Hstart)
    as (Ht & Hkey & ->).
  rewrite Hstart. injection Ht as ->. injection Hkey as ->. reflexivity.
Defined.

Lemma delivery_makes_at_most_two_calls_witness :
  fst (webhook ascii_ops env_up (text_update 5 "hello") two_chats) = Returned OK.
Proof.
  destruct (webhook ascii_ops env_up (text_update 5 "hello") two_chats) as [[v|x] w'] eqn:Hrun.
  - cbn [fst]. f_equal.
    apply (proj1 (delivery_makes_at_most_two_calls ascii_ops env_up
                    (text_update 5 "hello") two_chats)).
    rewrite Hrun. reflexivity.
  - vm_compute in Hrun. discriminate Hrun.
Defined.
